(** * Variant resolution of robot-is-chill: a shallow embedding

    The development follows [src/cogs/variants.py]: the variant codec
    ([split_variant], [join_variant]), the adjacency query
    ([ContextBase.is_adjacent]), the registry ([VariantHandlers], [Handler]),
    per-tile and whole-grid resolution ([handle_tile], [handle_grid]), the
    default factory, the finalizer, the [add] helper, and the handlers for
    alternate sprites and a few filters.

    Conventions.
    - A Python [int] is a [Z]; [%] and [divmod] with a positive divisor are
      [Z.modulo] and [Z.div] (both floor).
    - A Python [dict] with string keys ([TileFields], flags, extras) is a
      [gmap string value]; [d.update(e)] is the left-biased union [e ∪ d].
    - A raised exception is the [Raise] branch of [result].
    - A regular expression is represented by the function that
      [re.fullmatch] computes from it: token to captured groups. *)

From Stdlib Require Import ZArith String Ascii List Bool Lia.
From Stdlib Require QArith DecimalString.
From stdpp Require Import base option list strings gmap.

Local Open Scope string_scope.
Local Open Scope Z_scope.

(** ** Python values *)

(** The values stored in fields, flags and extras.  A [float] is kept as the
    rational its decimal literal denotes: no handler modelled here computes
    with it. *)
#[warnings="-register-all"] Inductive value : Type :=
  | VNone
  | VBool (b : bool)
  | VInt (z : Z)
  | VFloat (q : QArith_base.Q)
  | VStr (s : string)
  | VTuple (vs : list value)
  | VList (vs : list value).

(** [bool(v)]. *)
Definition truthy (v : value) : bool :=
  match v with
  | VNone => false
  | VBool b => b
  | VInt z => negb (z =? 0)
  | VFloat q => negb (QArith_base.Qnum q =? 0)
  | VStr s => negb (String.eqb s "")
  | VTuple vs => match vs with [] => false | _ => true end
  | VList vs => match vs with [] => false | _ => true end
  end.

(** [bool(d.get(k))]: a missing key reads as [None]. *)
Definition flag_set (flags : gmap string value) (k : string) : bool :=
  match flags !! k with
  | Some v => truthy v
  | None => false
  end.

(** ** Variant codec *)

(** [split_variant]: [None] is the absent argument. *)
Definition split_variant (variant : option Z) : Z * Z :=
  match variant with
  | None => (0, 0)
  | Some variant =>
      let dir := variant / 8 in
      let anim := variant mod 8 in
      if anim =? 7 then (((dir + 1) mod 4) * 8, -1)
      else (dir * 8, anim)
  end.

Definition join_variant (dir anim : Z) : Z := (dir + anim) mod 32.

(** The direction and animation values of the convention. *)
Definition directions_conv : list Z := [0; 8; 16; 24].
Definition animations_conv : list Z := [-1; 0; 1; 2; 3; 4; 5; 6].

(** ** Tiles, static records, errors *)

(** [RawTile] (declared in [src/tile.py]): identifier, modifier tokens,
    text flag. *)
Record RawTile : Type := mkRawTile {
  name : string;
  variants : list string;
  is_text : bool
}.

(** [TileData] (declared in [src/db.py]): the attributes read during
    resolution.  The tiling category is an integer. *)
Record TileData : Type := mkTileData {
  td_name : string;
  source : string;
  sprite : string;
  tiling : Z;
  active_color : Z * Z;
  inactive_color : Z * Z;
  text_type : Z
}.

(** First argument of the tile errors: some raise sites pass the tile
    object, the others its name. *)
Inductive tile_arg : Type :=
  | ArgTile (t : RawTile)
  | ArgName (n : string).

(** The exceptions of [errors] that the modelled code raises, and the
    built-in ones it can run into. *)
Inductive error : Type :=
  | UnknownVariant (tile : RawTile) (variant : string)
  | BadTilingVariant (who : tile_arg) (variant : string) (tiling_shown : value)
  | TileNotFound (tile : RawTile)
  | VariantError (msg : string)
  | IndexError
  | KeyError
  | ValueError
  | AttributeError.

Inductive result (A : Type) : Type :=
  | Ok (a : A)
  | Raise (e : error).
Arguments Ok {A} a.
Arguments Raise {A} e.

#[export] Instance result_ret : MRet result := fun A a => Ok a.

#[export] Instance result_bind : MBind result := fun A B k r =>
  match r with
  | Ok a => k a
  | Raise e => Raise e
  end.

Definition is_Raise {A : Type} (r : result A) : bool :=
  match r with
  | Ok _ => false
  | Raise _ => true
  end.

(** ** Sequences *)

Definition len {A : Type} (l : list A) : Z := Z.of_nat (length l).

(** [l[i]] for an integer index: a negative index counts from the end, an
    index outside [-len, len) raises [IndexError]. *)
Definition py_getitem {A : Type} (l : list A) (i : Z) : result A :=
  let j := if i <? 0 then i + len l else i in
  if j <? 0 then Raise IndexError
  else match l !! Z.to_nat j with
       | Some a => Ok a
       | None => Raise IndexError
       end.

(** [l.insert(i, x)]: the index is clamped to [0, len]. *)
Definition py_insert {A : Type} (l : list A) (i : Z) (x : A) : list A :=
  let j := if i <? 0 then Z.max 0 (i + len l) else Z.min i (len l) in
  take (Z.to_nat j) l ++ x :: drop (Z.to_nat j) l.

(** ** Grid and contexts *)

(** [RawGrid]: step, layer, row, column. *)
Definition RawGrid : Type := list (list (list (list RawTile))).

(** [GridIndex] as [handle_grid] builds it. *)
Definition GridIndex : Type := (Z * Z * Z * Z)%type.

(** [ContextBase]; the [bot] attribute is read by no modelled function. *)
Record ContextBase : Type := mkContext {
  ctx_tile : RawTile;
  ctx_grid : RawGrid;
  ctx_index : GridIndex;
  ctx_tile_data_cache : gmap string TileData;
  ctx_flags : gmap string value
}.

(** The [tile_data] property. *)
Definition tile_data (ctx : ContextBase) : option TileData :=
  ctx_tile_data_cache ctx !! name (ctx_tile ctx).

(** [name in (self.tile.name, "level", "border")]. *)
Definition joins (origin : RawTile) (occupant : RawTile) : bool :=
  String.eqb (name occupant) (name origin)
  || String.eqb (name occupant) "level"
  || String.eqb (name occupant) "border".

(** [ContextBase.is_adjacent].  The [print] call evaluates [self.grid[d]]
    first; its output is not modelled.  The [or] chain is evaluated left to
    right and stops at the first true operand. *)
Definition is_adjacent (ctx : ContextBase) (coordinate : Z * Z * Z * Z)
  : result bool :=
  let '(d, x, y, l) := coordinate in
  let border := flag_set (ctx_flags ctx) "tile_borders" in
  step ← py_getitem (ctx_grid ctx) d;
  if x <? 0 then Ok border
  else if y <? 0 then Ok border
  else
    layer ← py_getitem step l;
    if y >=? len layer then Ok border
    else
      row0 ← py_getitem layer 0;
      if x >=? len row0 then Ok border
      else
        row ← py_getitem layer y;
        cell ← py_getitem row x;
        Ok (joins (ctx_tile ctx) cell).

(** ** Registry *)

(** [TileFields], flags and extras are dictionaries with string keys. *)
Abbreviation TileFields := (gmap string value).

(** [fields.update(partial)]: the keys of [partial] overwrite, the other
    keys stay. *)
Definition update (fields partial : TileFields) : TileFields :=
  partial ∪ fields.

(** [HandlerContext].  [hc_extras] is the tile's scratch dictionary: a
    handler that writes to it returns the written dictionary next to its
    result. *)
Record HandlerContext : Type := mkHandlerContext {
  hc_base : ContextBase;
  hc_fields : TileFields;
  hc_variant : string;
  hc_groups : list (option string);
  hc_extras : gmap string value
}.

(** [Handler]: [pattern] is the matcher of the regular expression, [fn]
    returns the partial fields and the extras as the call leaves them.  The
    [hints] and [group] attributes are documentation, read by
    [all_variants] and [valid_variants] only; they are left out. *)
Record Handler : Type := mkHandler {
  pattern : string -> option (list (option string));
  fn : HandlerContext -> result (TileFields * gmap string value)
}.

(** [Handler.match] and [Handler.handle]. *)
Definition Handler_match (h : Handler) (variant : string)
  : option (list (option string)) := pattern h variant.

Definition handle (h : Handler) (ctx : HandlerContext)
  : result (TileFields * gmap string value) := fn h ctx.

(** Modelled from the spec: [FullTile] and [FullTile.from_tile_fields] are
    declared in [src/tile.py], which is not among the sources.  The
    descriptor is the tile's identifier with the final attribute set; an
    attribute that no field sets reads as its falsy default ([custom] false,
    [custom_style] [None], [variant_number] and [meta_level] zero). *)
Record FullTile : Type := mkFullTile {
  ft_name : string;
  ft_fields : TileFields
}.

Definition from_tile_fields (tile : RawTile) (fields : TileFields) : FullTile :=
  mkFullTile (name tile) fields.

Definition ft_custom (t : FullTile) : bool := flag_set (ft_fields t) "custom".

Definition ft_custom_style (t : FullTile) : option value :=
  match ft_fields t !! "custom_style" with
  | Some VNone => None
  | o => o
  end.

Definition ft_int (t : FullTile) (k : string) : Z :=
  match ft_fields t !! k with
  | Some (VInt z) => z
  | _ => 0
  end.

Definition set_custom_style (t : FullTile) (style : string) : FullTile :=
  mkFullTile (ft_name t) (<["custom_style" := VStr style]> (ft_fields t)).

(** The list that [flags["extra_names"]] refers to is shared by every call
    of one resolution; it is threaded as a store ([None]: the flag is absent
    or [None]). *)
Abbreviation ExtraNames := (option (list string)).

(** [VariantHandlers]: the ordered handlers, the default factory and the
    finalizer ([None] until [finalize] has registered one). *)
Record VariantHandlers : Type := mkVariantHandlers {
  handlers : list Handler;
  default_fields : ContextBase -> result TileFields;
  finalizer :
    option (FullTile -> gmap string value -> ExtraNames ->
            result (FullTile * ExtraNames))
}.

(** [VariantHandlers.__init__]. *)
Definition new_handlers : VariantHandlers :=
  mkVariantHandlers [] (fun _ => Ok ∅) None.

(** The decorator returned by [VariantHandlers.handler]: append without
    [order], [list.insert] with it. *)
Definition register (H : VariantHandlers) (order : option Z) (h : Handler)
  : VariantHandlers :=
  mkVariantHandlers
    (match order with
     | None => handlers H ++ [h]
     | Some i => py_insert (handlers H) i h
     end)
    (default_fields H) (finalizer H).

(** [VariantHandlers.default] and [VariantHandlers.finalize]. *)
Definition register_default (H : VariantHandlers)
    (f : ContextBase -> result TileFields) : VariantHandlers :=
  mkVariantHandlers (handlers H) f (finalizer H).

Definition register_finalize (H : VariantHandlers)
    (f : FullTile -> gmap string value -> ExtraNames ->
         result (FullTile * ExtraNames)) : VariantHandlers :=
  mkVariantHandlers (handlers H) (default_fields H) (Some f).

(** ** Per-tile resolution *)

(** The state of the loops of [handle_tile]: the accumulator, the extras
    and the [failed] flag of the token being resolved. *)
Abbreviation ScanState := (TileFields * gmap string value * bool)%type.

(** The inner loop of [handle_tile] over the handlers in the order given:
    every handler whose pattern matches is called on the current accumulator
    and its result merged; the loop has no [break]. *)
Fixpoint scan_handlers (hs : list Handler) (base : ContextBase)
    (variant : string) (st : ScanState) : result ScanState :=
  match hs with
  | [] => Ok st
  | handler :: hs' =>
      let '(fields, extras, failed) := st in
      match Handler_match handler variant with
      | Some groups =>
          let ctx := mkHandlerContext base fields variant groups extras in
          '(partial, extras') ← handle handler ctx;
          scan_handlers hs' base variant (update fields partial, extras', false)
      | None => scan_handlers hs' base variant st
      end
  end.

(** One iteration of the outer loop: scan [reversed(self.handlers)], then
    raise [UnknownVariant] when nothing matched. *)
Definition handle_variant (hs : list Handler) (base : ContextBase)
    (variant : string) (st : TileFields * gmap string value)
  : result (TileFields * gmap string value) :=
  scanned ← scan_handlers (rev hs) base variant (st.1, st.2, true);
  let '(fields, extras, failed) := (scanned : ScanState) in
  if failed then Raise (UnknownVariant (ctx_tile base) variant)
  else Ok (fields, extras).

(** The outer loop over [tile.variants]. *)
Fixpoint apply_variants (hs : list Handler) (base : ContextBase)
    (vs : list string) (st : TileFields * gmap string value)
  : result (TileFields * gmap string value) :=
  match vs with
  | [] => Ok st
  | variant :: vs' =>
      st' ← handle_variant hs base variant st;
      apply_variants hs base vs' st'
  end.

(** [VariantHandlers.handle_tile]. *)
Definition handle_tile (H : VariantHandlers) (tile : RawTile) (grid : RawGrid)
    (index : GridIndex) (tile_data_cache : gmap string TileData)
    (flags : gmap string value) (extra_names : ExtraNames)
  : result (FullTile * ExtraNames) :=
  let default_ctx := mkContext tile grid index tile_data_cache flags in
  fields ← default_fields H default_ctx;
  '(fields, _) ← apply_variants (handlers H) default_ctx (variants tile) (fields, ∅);
  let full := from_tile_fields tile fields in
  match finalizer H with
  | None => Raise AttributeError
  | Some fin => fin full flags extra_names
  end.

(** ** Whole-grid resolution *)

(** A list comprehension over [enumerate(l)] whose body can raise and
    updates the shared store. *)
Fixpoint map_enumerate {A B S : Type} (f : Z -> A -> S -> result (B * S))
    (i : Z) (l : list A) (s : S) : result (list B * S) :=
  match l with
  | [] => Ok ([], s)
  | a :: l' =>
      '(b, s1) ← f i a s;
      '(bs, s2) ← map_enumerate f (i + 1) l' s1;
      Ok (b :: bs, s2)
  end.

(** The identifiers of every tile of the grid. *)
Definition grid_names (grid : RawGrid) : gset string :=
  list_to_set (name <$> concat (concat (concat grid))).

(** The cache comprehension: a later record of the same name replaces an
    earlier one. *)
Definition build_cache (records : list TileData) : gmap string TileData :=
  fold_left (fun cache data => <[td_name data := data]> cache) records ∅.

(** [VariantHandlers.handle_grid].  [db_tiles] stands for [bot.db.tiles],
    the store of static records, which is awaited before any tile is
    resolved. *)
Definition handle_grid (db_tiles : gset string -> value -> list TileData)
    (H : VariantHandlers) (grid : RawGrid) (flags : gmap string value)
    (extra_names : ExtraNames)
  : result (list (list (list (list FullTile))) * ExtraNames) :=
  let tile_data_cache :=
    build_cache (db_tiles (grid_names grid)
                   (default (VInt 1000) (flags !! "ignore_editor_overrides"))) in
  map_enumerate (fun d step =>
    map_enumerate (fun y row =>
      map_enumerate (fun x stack =>
        map_enumerate (fun z tile =>
          handle_tile H tile grid (d, x, y, z) tile_data_cache flags)
        0 stack)
      0 row)
    0 step)
  0 grid extra_names.

(** ** Constants *)

(** The key of [TILING_VARIANTS]: the four cardinal joins (right, up, left,
    down), then the four diagonal ones (right-up, up-left, left-down,
    down-right). *)
Definition tiling_key : Type :=
  (bool * bool * bool * bool * bool * bool * bool * bool)%type.

(** The [constants] module is not among the sources: what the modelled code
    reads from it is a parameter of the development.  A dictionary is the
    list of its items. *)
Record Constants : Type := mkConstants {
  AUTO_TILINGS : list Z;
  DIRECTION_TILINGS : list Z;
  ANIMATION_TILINGS : list Z;
  SLEEP_TILINGS : list Z;
  DIRECTIONS : list Z;
  DIRECTION_VARIANTS : list (string * Z);
  ANIMATION_VARIANTS : list (string * Z);
  SLEEP_VARIANTS : list (string * Z);
  AUTO_VARIANTS : list (string * Z);
  TILING_VARIANTS : list (tiling_key * Z)
}.

(** [d.get(k)], [d[k]], [d.get(k, default)], [x in seq], [d.values()]. *)
Fixpoint dict_get {K V : Type} `{EqDecision K} (d : list (K * V)) (k : K)
  : option V :=
  match d with
  | [] => None
  | (k', v) :: d' => if decide (k' = k) then Some v else dict_get d' k
  end.

Definition dict_getitem {K V : Type} `{EqDecision K} (d : list (K * V)) (k : K)
  : result V :=
  match dict_get d k with
  | Some v => Ok v
  | None => Raise KeyError
  end.

Definition dict_get_default {K V : Type} `{EqDecision K} (d : list (K * V))
    (k : K) (dft : V) : V :=
  match dict_get d k with
  | Some v => v
  | None => dft
  end.

Definition contains (l : list Z) (x : Z) : bool := existsb (Z.eqb x) l.

Definition values {K V : Type} (d : list (K * V)) : list V := snd <$> d.

(** The matcher of [r"|".join(d)] for a dictionary whose keys are literal
    words: the token is one of the keys (the empty pattern of an empty
    dictionary matches the empty token).  There is no capturing group. *)
Definition keys_pattern (d : list (string * Z)) (token : string)
  : option (list (option string)) :=
  match d with
  | [] => if String.eqb token "" then Some [] else None
  | _ => if existsb (String.eqb token) (fst <$> d) then Some [] else None
  end.

(** ** Text of tokens *)

Definition is_digit (c : ascii) : bool :=
  let n := N_of_ascii c in (48 <=? n)%N && (n <=? 57)%N.

Fixpoint all_digits (s : string) : bool :=
  match s with
  | EmptyString => true
  | String c s' => is_digit c && all_digits s'
  end.

(** [\d+]. *)
Definition digits1 (s : string) : bool :=
  negb (String.eqb s "") && all_digits s.

Fixpoint digits_value (s : string) (acc : Z) : Z :=
  match s with
  | EmptyString => acc
  | String c s' => digits_value s' (10 * acc + (Z.of_N (N_of_ascii c) - 48))
  end.

Fixpoint strip_prefix (p s : string) : option string :=
  match p with
  | EmptyString => Some s
  | String a p' =>
      match s with
      | String b s' => if Ascii.eqb a b then strip_prefix p' s' else None
      | EmptyString => None
      end
  end.

(** [int(s)] on the tokens and groups the handlers pass to it: decimal
    digits with an optional minus sign; anything else raises
    [ValueError]. *)
Definition py_int (s : string) : result Z :=
  match strip_prefix "-" s with
  | Some s' =>
      if digits1 s' then Ok (- digits_value s' 0) else Raise ValueError
  | None => if digits1 s then Ok (digits_value s 0) else Raise ValueError
  end.

(** The text before the first dot, and the text after it if there is
    one. *)
Fixpoint split_dot (s : string) : string * option string :=
  match s with
  | EmptyString => (EmptyString, None)
  | String "." s' => (EmptyString, Some s')
  | String c s' => let '(a, b) := split_dot s' in (String c a, b)
  end.

(** [-?\d+(?:\.\d+)?]. *)
Definition is_decimal (s : string) : bool :=
  let body := match s with String "-" s' => s' | _ => s end in
  match split_dot body with
  | (a, None) => digits1 a
  | (a, Some b) => digits1 a && digits1 b
  end.

(** [float(s)] on a text accepted by [is_decimal]: the rational it
    denotes. *)
Definition py_float (s : string) : QArith_base.Q :=
  let '(sign, body) :=
    match s with String "-" s' => (-1, s') | _ => (1, s) end in
  match split_dot body with
  | (a, None) => QArith_base.Qmake (sign * digits_value a 0) 1
  | (a, Some b) =>
      Qreduction.Qred
        (QArith_base.Qmake (sign * digits_value (a ++ b) 0)
           (Pos.pow 10 (Pos.of_nat (String.length b))))
  end.

(** The literal [1.4]. *)
Definition float_1_4 : QArith_base.Q := QArith_base.Qmake 7 5.

(** [s[5:]], [len(s)], [s.replace("/", "")], [n * s], [str(n)]. *)
Fixpoint drop_chars (n : nat) (s : string) : string :=
  match n, s with
  | O, _ => s
  | S n', String _ s' => drop_chars n' s'
  | S _, EmptyString => EmptyString
  end.

Fixpoint remove_slashes (s : string) : string :=
  match s with
  | EmptyString => EmptyString
  | String "/" s' => remove_slashes s'
  | String c s' => String c (remove_slashes s')
  end.

Fixpoint repeat_string (n : nat) (s : string) : string :=
  match n with
  | O => EmptyString
  | S n' => s ++ repeat_string n' s
  end.

Definition str_of_int (z : Z) : string :=
  DecimalString.NilZero.string_of_int (Z.to_int z).

(** ** The default factory, the finalizer and the handlers of [setup] *)

(** [a and b and c] where only [c] is a call that can raise: [c] is not
    evaluated unless [a] and [b] hold. *)
Definition and_then (a b : bool) (c : result bool) : result bool :=
  if a then if b then c else Ok false else Ok false.

(** The auto-tiling part of [default]: the fallback variant from the four
    cardinal joins, and the variant from all eight. *)
Definition auto_tile (K : Constants) (ctx : ContextBase) : result (Z * Z) :=
  let '(d, y, t, x) := ctx_index ctx in
  adj_right ← is_adjacent ctx (d, x + 1, y, t);
  adj_up ← is_adjacent ctx (d, x, y - 1, t);
  adj_left ← is_adjacent ctx (d, x - 1, y, t);
  adj_down ← is_adjacent ctx (d, x, y + 1, t);
  variant_fallback ←
    dict_getitem (TILING_VARIANTS K)
      (adj_right, adj_up, adj_left, adj_down, false, false, false, false);
  adj_rightup ← and_then adj_right adj_up (is_adjacent ctx (d, x + 1, y - 1, t));
  adj_upleft ← and_then adj_up adj_left (is_adjacent ctx (d, x - 1, y - 1, t));
  adj_leftdown ← and_then adj_left adj_down (is_adjacent ctx (d, x - 1, y + 1, t));
  adj_downright ← and_then adj_down adj_right (is_adjacent ctx (d, x + 1, y + 1, t));
  Ok (dict_get_default (TILING_VARIANTS K)
        (adj_right, adj_up, adj_left, adj_down,
         adj_rightup, adj_upleft, adj_leftdown, adj_downright)
        variant_fallback,
      variant_fallback).

Definition color_value (c : Z * Z) : value := VTuple [VInt c.1; VInt c.2].

(** [default]. *)
Definition default_factory (K : Constants) (ctx : ContextBase)
  : result TileFields :=
  if String.eqb (name (ctx_tile ctx)) "-" then
    Ok {[ "empty" := VBool true ]}
  else
    match tile_data ctx with
    | Some tile_data =>
        '(variant, variant_fallback) ←
          (if contains (AUTO_TILINGS K) (tiling tile_data)
           then auto_tile K ctx
           else Ok (0, 0));
        let color :=
          if flag_set (ctx_flags ctx) "raw_output" then (0, 3)
          else active_color tile_data in
        Ok (list_to_map
              [("variant_number", VInt variant);
               ("variant_fallback", VInt variant_fallback);
               ("color_index", color_value color);
               ("meta_level", VInt 0);
               ("sprite", VTuple [VStr (source tile_data);
                                  VStr (sprite tile_data)])])
    | None =>
        if negb (is_text (ctx_tile ctx)) then Raise (TileNotFound (ctx_tile ctx))
        else
          Ok (list_to_map
                [("custom", VBool true);
                 ("variant_number", VInt 0);
                 ("color_index", color_value (0, 3));
                 ("meta_level", VInt 0)])
    end.

(** The first part of [finalize]: the shared [extra_names] list. *)
Definition finalize_names (tile : FullTile) (extra_names : ExtraNames)
  : ExtraNames :=
  match extra_names with
  | None => None
  | Some (_ :: rest) => Some ("render" :: rest)
  | Some [] =>
      Some [repeat_string (Z.to_nat (ft_int tile "meta_level")) "meta_"
            ++ remove_slashes (ft_name tile) ++ "_"
            ++ str_of_int (ft_int tile "variant_number")]
  end.

(** The second part of [finalize]: the default custom-text style. *)
Definition finalize_style (tile : FullTile) (flags : gmap string value)
  : FullTile :=
  if ft_custom tile && bool_decide (ft_custom_style tile = None) then
    if (String.length (drop_chars 5 (ft_name tile)) =? 2)%nat
       && flag_set flags "default_to_letters"
    then set_custom_style tile "letter"
    else set_custom_style tile "noun"
  else tile.

(** [finalize]. *)
Definition finalize (tile : FullTile) (flags : gmap string value)
    (extra_names : ExtraNames) : result (FullTile * ExtraNames) :=
  Ok (finalize_style tile flags, finalize_names tile extra_names).

(** [add]: [f + [[dst, var]]] raises [TypeError] unless [f] is a list, and
    the [except] branch then starts a new list. *)
Definition add (ctx : HandlerContext) (dst : string) (var : value)
  : TileFields :=
  match hc_fields ctx !! "filters" with
  | Some (VList f) => {[ "filters" := VList (f ++ [VList [VStr dst; var]]) ]}
  | _ => {[ "filters" := VList [VList [VStr dst; var]] ]}
  end.

(** [split_variant(ctx.fields.get("variant_number"))]: the field holds an
    integer or is absent. *)
Definition field_int (fields : TileFields) (k : string) : option Z :=
  match fields !! k with
  | Some (VInt z) => Some z
  | _ => None
  end.

Definition hc_tile (ctx : HandlerContext) : RawTile := ctx_tile (hc_base ctx).
Definition hc_flags (ctx : HandlerContext) : gmap string value :=
  ctx_flags (hc_base ctx).
Definition hc_tile_data (ctx : HandlerContext) : option TileData :=
  tile_data (hc_base ctx).

(** [directions]. *)
Definition directions (K : Constants) (ctx : HandlerContext)
  : result (TileFields * gmap string value) :=
  dir ← dict_getitem (DIRECTION_VARIANTS K) (hc_variant ctx);
  let '(_, anim) := split_variant (field_int (hc_fields ctx) "variant_number") in
  if match hc_tile_data ctx with
     | Some tile_data => contains (DIRECTION_TILINGS K) (tiling tile_data)
     | None => false
     end
  then
    Ok (list_to_map [("variant_number", VInt (join_variant dir anim));
                     ("custom_direction", VInt dir)],
        hc_extras ctx)
  else if flag_set (hc_flags ctx) "ignore_bad_directions" then
    Ok (∅, hc_extras ctx)
  else if flag_set (hc_flags ctx) "disallow_custom_directions"
          && negb (is_text (hc_tile ctx))
  then Raise (BadTilingVariant (ArgTile (hc_tile ctx)) (hc_variant ctx)
                (VStr "<missing>"))
  else Ok ({[ "custom_direction" := VInt dir ]}, hc_extras ctx).

(** [animations]. *)
Definition animations (K : Constants) (ctx : HandlerContext)
  : result (TileFields * gmap string value) :=
  anim ← dict_getitem (ANIMATION_VARIANTS K) (hc_variant ctx);
  let '(dir, _) := split_variant (field_int (hc_fields ctx) "variant_number") in
  match hc_tile_data ctx with
  | Some tile_data =>
      if contains (ANIMATION_TILINGS K) (tiling tile_data)
      then Ok ({[ "variant_number" := VInt (join_variant dir anim) ]},
               hc_extras ctx)
      else Raise (BadTilingVariant (ArgName (name (hc_tile ctx)))
                    (hc_variant ctx) (VInt (tiling tile_data)))
  | None =>
      Raise (BadTilingVariant (ArgName (name (hc_tile ctx)))
               (hc_variant ctx) VNone)
  end.

(** [sleep]. *)
Definition sleep (K : Constants) (ctx : HandlerContext)
  : result (TileFields * gmap string value) :=
  anim ← dict_getitem (SLEEP_VARIANTS K) (hc_variant ctx);
  let '(dir, _) := split_variant (field_int (hc_fields ctx) "variant_number") in
  match hc_tile_data ctx with
  | Some tile_data =>
      if contains (SLEEP_TILINGS K) (tiling tile_data)
      then Ok ({[ "variant_number" := VInt (join_variant dir anim) ]},
               hc_extras ctx)
      else Raise (BadTilingVariant (ArgName (name (hc_tile ctx)))
                    (hc_variant ctx) (VInt (tiling tile_data)))
  | None =>
      Raise (BadTilingVariant (ArgName (name (hc_tile ctx)))
               (hc_variant ctx) (VStr "<missing>"))
  end.

(** [auto]: the second application on a tile combines with [|]. *)
Definition auto (K : Constants) (ctx : HandlerContext)
  : result (TileFields * gmap string value) :=
  match hc_tile_data ctx with
  | Some tile_data =>
      if contains (AUTO_TILINGS K) (tiling tile_data) then
        if flag_set (hc_extras ctx) "auto_override" then
          let num := default 0 (field_int (hc_fields ctx) "variant_number") in
          bits ← dict_getitem (AUTO_VARIANTS K) (hc_variant ctx);
          Ok ({[ "variant_number" := VInt (Z.lor num bits) ]}, hc_extras ctx)
        else
          bits ← dict_getitem (AUTO_VARIANTS K) (hc_variant ctx);
          Ok ({[ "variant_number" := VInt bits ]},
              <["auto_override" := VBool true]> (hc_extras ctx))
      else Raise (BadTilingVariant (ArgName (name (hc_tile ctx)))
                    (hc_variant ctx) (VInt (tiling tile_data)))
  | None =>
      Raise (BadTilingVariant (ArgName (name (hc_tile ctx)))
               (hc_variant ctx) VNone)
  end.

(** The matcher of [\d{1,2}]. *)
Definition raw_variant_pattern (token : string)
  : option (list (option string)) :=
  if all_digits token
     && ((String.length token =? 1)%nat || (String.length token =? 2)%nat)
  then Some [] else None.

(** The body of the [try] statement of [raw_variant]: the validation of the
    number against the tiling category. *)
Definition raw_variant_check (K : Constants) (ctx : HandlerContext)
    (tiling : Z) (variant : Z) : result unit :=
  let bad := BadTilingVariant (ArgName (name (hc_tile ctx))) (hc_variant ctx)
               (VInt tiling) in
  if contains (AUTO_TILINGS K) tiling then
    if variant >=? 47 then Raise bad else Ok tt
  else
    let '(dir, anim) := split_variant (Some variant) in
    _ ← (if negb (dir =? 0) then
           if negb (contains (DIRECTION_TILINGS K) tiling)
              || negb (contains (DIRECTIONS K) dir)
           then Raise bad else Ok tt
         else Ok tt);
    if negb (anim =? 0) then
      if contains (values (SLEEP_VARIANTS K)) anim then
        if negb (contains (SLEEP_TILINGS K) tiling) then Raise bad else Ok tt
      else
        if negb (contains (ANIMATION_TILINGS K) tiling)
           || negb (contains (values (ANIMATION_VARIANTS K)) anim)
        then Raise bad else Ok tt
    else Ok tt.

(** [raw_variant]: [except BaseException] turns whatever the [try] body
    raises into the variant number -1. *)
Definition raw_variant (K : Constants) (ctx : HandlerContext)
  : result (TileFields * gmap string value) :=
  variant ← py_int (hc_variant ctx);
  match hc_tile_data ctx with
  | None => Raise (VariantError "what tile is that even")
  | Some tile_data =>
      match raw_variant_check K ctx (tiling tile_data) variant with
      | Ok _ => Ok ({[ "variant_number" := VInt variant ]}, hc_extras ctx)
      | Raise _ => Ok ({[ "variant_number" := VInt (-1) ]}, hc_extras ctx)
      end
  end.

(** The matcher of [neon(?:(-?\d+(?:\.\d+)?))?]: one group, absent when the
    token is the bare word. *)
Definition neon_pattern (token : string) : option (list (option string)) :=
  match strip_prefix "neon" token with
  | Some EmptyString => Some [None]
  | Some rest => if is_decimal rest then Some [Some rest] else None
  | None => None
  end.

(** [neon]: [float(ctx.groups[0] or 1.4)]. *)
Definition neon (ctx : HandlerContext)
  : result (TileFields * gmap string value) :=
  g ← py_getitem (hc_groups ctx) 0;
  let n := match g with
           | Some text =>
               if String.eqb text "" then float_1_4 else py_float text
           | None => float_1_4
           end in
  Ok (add ctx "neon" (VFloat n), hc_extras ctx).

(** The matcher of a pattern that is one literal word. *)
Definition word_pattern (word token : string) : option (list (option string)) :=
  if String.eqb token word then Some [] else None.

(** [blank] and [flipx]. *)
Definition blank (ctx : HandlerContext)
  : result (TileFields * gmap string value) :=
  Ok (add ctx "blank" (VBool true), hc_extras ctx).

Definition flipx (ctx : HandlerContext)
  : result (TileFields * gmap string value) :=
  Ok (add ctx "flipx" (VBool true), hc_extras ctx).

(** The part of [setup] that registers the default factory, the finalizer
    and the handlers above, in the order of the source. *)
Definition setup (K : Constants) : VariantHandlers :=
  let H := register_default new_handlers (default_factory K) in
  let H := register_finalize H finalize in
  let H := register H None
    (mkHandler (keys_pattern (DIRECTION_VARIANTS K)) (directions K)) in
  let H := register H None
    (mkHandler (keys_pattern (ANIMATION_VARIANTS K)) (animations K)) in
  let H := register H None
    (mkHandler (keys_pattern (SLEEP_VARIANTS K)) (sleep K)) in
  let H := register H None
    (mkHandler (keys_pattern (AUTO_VARIANTS K)) (auto K)) in
  let H := register H None
    (mkHandler raw_variant_pattern (raw_variant K)) in
  let H := register H None
    (mkHandler neon_pattern neon) in
  let H := register H None
    (mkHandler (word_pattern "blank") blank) in
  register H None
    (mkHandler (word_pattern "flipx") flipx).

(** ** Sample inputs *)

(** A constants table to run the definitions on: the tiling categories
    -1 to 4, the four directions, and a tiling table with the sixteen
    cardinal keys and the fully enclosed key. *)
Definition b2z (b : bool) : Z := if b then 1 else 0.

Definition sample_tiling_variants : list (tiling_key * Z) :=
  ((true, true, true, true, true, true, true, true), 46) ::
  (r ← [false; true]; u ← [false; true]; l ← [false; true]; d ← [false; true];
   [((r, u, l, d, false, false, false, false),
     b2z r + 2 * b2z u + 4 * b2z l + 8 * b2z d)]).

Definition sample_constants : Constants := {|
  AUTO_TILINGS := [1];
  DIRECTION_TILINGS := [0; 2; 3];
  ANIMATION_TILINGS := [2; 3; 4];
  SLEEP_TILINGS := [2];
  DIRECTIONS := [0; 8; 16; 24];
  DIRECTION_VARIANTS :=
    [("r", 0); ("right", 0); ("u", 8); ("up", 8);
     ("l", 16); ("left", 16); ("d", 24); ("down", 24)];
  ANIMATION_VARIANTS := [("a0", 0); ("a1", 1); ("a2", 2); ("a3", 3)];
  SLEEP_VARIANTS := [("s", -1); ("sleep", -1)];
  AUTO_VARIANTS := [("tr", 1); ("tu", 2); ("tl", 4); ("td", 8)];
  TILING_VARIANTS := sample_tiling_variants
|}.

(** Static records: [wall] auto-tiles, [baba] has directions, animation
    and sleep, [flag] has a single sprite. *)
Definition wall_data : TileData := mkTileData "wall" "vanilla" "wall" 1 (1, 1) (0, 1) 0.
Definition baba_data : TileData := mkTileData "baba" "vanilla" "baba" 2 (0, 3) (0, 1) 0.
Definition flag_data : TileData := mkTileData "flag" "vanilla" "flag" (-1) (2, 4) (6, 1) 0.

Definition sample_cache : gmap string TileData :=
  build_cache [wall_data; baba_data; flag_data].

Definition sample_db (names : gset string) (maximum_version : value)
  : list TileData :=
  filter (fun data => td_name data ∈ names) [wall_data; baba_data; flag_data].

Definition tile_of (n : string) (vs : list string) : RawTile :=
  mkRawTile n vs false.

(** Two handlers with overlapping patterns, to observe the priority of
    the registry: the first accepts [x] and [xy] (the pattern [xy?]), the
    second [xy] alone. *)
Definition general_handler : Handler :=
  mkHandler
    (fun token =>
       if String.eqb token "x" || String.eqb token "xy" then Some [] else None)
    (fun ctx =>
       Ok (list_to_map [("color_index", color_value (1, 1));
                        ("general", VBool true)],
           hc_extras ctx)).

Definition specific_handler : Handler :=
  mkHandler (word_pattern "xy")
    (fun ctx => Ok ({[ "color_index" := color_value (2, 2) ]}, hc_extras ctx)).

(** Whether a handler's pattern accepts a token. *)
Definition matches (variant : string) (h : Handler) : bool :=
  match Handler_match h variant with
  | Some _ => true
  | None => false
  end.

(** ** Further handlers of [setup] *)

(** The exceptions that the handlers below add to those of [error]:
    [TypeError] and the remaining classes of the [errors] module. *)
Inductive exn : Type :=
  | Known (e : error)
  | TypeError
  | BadPaletteIndex (who : string) (variant : string)
  | BadMetaVariant (who : string) (variant : string) (level : Z)
  | TileNotText (who : string) (variant : string)
  | BadLetterVariant (who : string) (variant : string).

Inductive outcome (A : Type) : Type :=
  | Return (a : A)
  | Throw (x : exn).
Arguments Return {A} a.
Arguments Throw {A} x.

#[export] Instance outcome_ret : MRet outcome := fun A a => Return a.

#[export] Instance outcome_bind : MBind outcome := fun A B k r =>
  match r with
  | Return a => k a
  | Throw x => Throw x
  end.

Definition lift {A : Type} (r : result A) : outcome A :=
  match r with
  | Ok a => Return a
  | Raise e => Throw (Known e)
  end.

(** [ctx.groups[i]], and [int(g)] on it: [int(None)] is a [TypeError]. *)
Definition group_at (ctx : HandlerContext) (i : Z) : outcome (option string) :=
  lift (py_getitem (hc_groups ctx) i).

(** [sys.int_info.default_max_str_digits]: [int] raises [ValueError] on a
    text with more decimal digits than this limit, the sign not counted. *)
Definition int_max_str_digits : Z := 4300.

Definition digit_count (text : string) : Z :=
  Z.of_nat (String.length match strip_prefix "-" text with
                          | Some body => body
                          | None => text
                          end).

Definition too_long (text : string) : bool :=
  int_max_str_digits <? digit_count text.

Definition int_of_group (g : option string) : outcome Z :=
  match g with
  | Some text =>
      if too_long text then Throw (Known ValueError) else lift (py_int text)
  | None => Throw TypeError
  end.

(** The value of a decimal digit. *)
Definition digit_of (c : ascii) : Z := Z.of_N (N_of_ascii c) - 48.

(** Hexadecimal digits, and [int(s, base=16)] on a text of such digits;
    anything else raises [ValueError]. *)
Definition hex_digit (c : ascii) : option Z :=
  let n := Z.of_N (N_of_ascii c) in
  if (48 <=? n) && (n <=? 57) then Some (n - 48)
  else if (97 <=? n) && (n <=? 102) then Some (n - 87)
  else if (65 <=? n) && (n <=? 70) then Some (n - 55)
  else None.

Fixpoint hex_value (s : string) (acc : Z) : option Z :=
  match s with
  | EmptyString => Some acc
  | String c s' =>
      match hex_digit c with
      | Some d => hex_value s' (16 * acc + d)
      | None => None
      end
  end.

Definition py_int16 (s : string) : result Z :=
  match s with
  | EmptyString => Raise ValueError
  | _ => match hex_value s 0 with
         | Some z => Ok z
         | None => Raise ValueError
         end
  end.

Definition int16_of_group (g : option string) : outcome Z :=
  match g with
  | Some text => lift (py_int16 text)
  | None => Throw TypeError
  end.

Fixpoint all_hex (s : string) : bool :=
  match s with
  | EmptyString => true
  | String c s' =>
      match hex_digit c with Some _ => all_hex s' | None => false end
  end.

(** The matcher of [#([0-9a-fA-F]{6})]. *)
Definition hex6_pattern (token : string) : option (list (option string)) :=
  match strip_prefix "#" token with
  | Some h =>
      if (String.length h =? 6)%nat && all_hex h then Some [Some h] else None
  | None => None
  end.

(** The first [color_rgb]: a six-digit hex code. *)
Definition color_rgb_hex6 (ctx : HandlerContext)
  : outcome (TileFields * gmap string value) :=
  g ← group_at ctx 0;
  color ← int16_of_group g;
  let red := Z.shiftr color 16 in
  let green := Z.shiftr (Z.land color 65280) 8 in
  let blue := Z.land color 255 in
  Return ({[ "color_rgb" := VTuple [VInt red; VInt green; VInt blue] ]},
          hc_extras ctx).

(** The matcher of [#([0-9a-fA-F]{3})]. *)
Definition hex3_pattern (token : string) : option (list (option string)) :=
  match strip_prefix "#" token with
  | Some h =>
      if (String.length h =? 3)%nat && all_hex h then Some [Some h] else None
  | None => None
  end.

Fixpoint chars (s : string) : list ascii :=
  match s with
  | EmptyString => []
  | String c s' => c :: chars s'
  end.

(** [[int(n + n, base=16) for n in text]]. *)
Fixpoint doubled_digits (cs : list ascii) : result (list Z) :=
  match cs with
  | [] => Ok []
  | c :: cs' =>
      v ← py_int16 (String c (String c EmptyString));
      vs ← doubled_digits cs';
      Ok (v :: vs)
  end.

(** The second [color_rgb]: a three-digit hex code; the unpacking into
    three names raises [ValueError] on any other number of characters. *)
Definition color_rgb_hex3 (ctx : HandlerContext)
  : outcome (TileFields * gmap string value) :=
  g ← group_at ctx 0;
  match g with
  | None => Throw TypeError
  | Some text =>
      vs ← lift (doubled_digits (chars text));
      match vs with
      | [red; green; blue] =>
          Return ({[ "color_rgb" := VTuple [VInt red; VInt green; VInt blue] ]},
                  hc_extras ctx)
      | _ => Throw (Known ValueError)
      end
  end.

(** The matcher of [(\d)/(\d)]. *)
Definition color_index_pattern (token : string)
  : option (list (option string)) :=
  match token with
  | String a (String "/" (String b EmptyString)) =>
      if is_digit a && is_digit b
      then Some [Some (String a EmptyString); Some (String b EmptyString)]
      else None
  | _ => None
  end.

(** [color_index]. *)
Definition color_index (ctx : HandlerContext)
  : outcome (TileFields * gmap string value) :=
  g0 ← group_at ctx 0;
  x ← int_of_group g0;
  g1 ← group_at ctx 1;
  y ← int_of_group g1;
  if (x >? 6) || (y >? 4)
  then Throw (BadPaletteIndex (name (hc_tile ctx)) (hc_variant ctx))
  else Return ({[ "color_index" := color_value (x, y) ]}, hc_extras ctx).

(** The text before the first occurrence of a character, and the text
    after it if there is one. *)
Fixpoint split_char (sep : ascii) (s : string) : string * option string :=
  match s with
  | EmptyString => (EmptyString, None)
  | String c s' =>
      if Ascii.eqb c sep then (EmptyString, Some s')
      else let '(a, b) := split_char sep s' in (String c a, b)
  end.

(** The matcher of [pixelate([\d]+)(?:\/([\d]+))?]. *)
Definition pixelate_pattern (token : string)
  : option (list (option string)) :=
  match strip_prefix "pixelate" token with
  | Some rest =>
      match split_char "/" rest with
      | (a, None) => if digits1 a then Some [Some a; None] else None
      | (a, Some b) =>
          if digits1 a && digits1 b then Some [Some a; Some b] else None
      end
  | None => None
  end.

(** [pixelate]: the list display evaluates [int(ctx.groups[0])] first. *)
Definition pixelate (ctx : HandlerContext)
  : outcome (TileFields * gmap string value) :=
  g0 ← group_at ctx 0;
  n0 ← int_of_group g0;
  g1 ← group_at ctx 1;
  n1 ← match g1 with
       | Some _ => n ← int_of_group g1; Return (Z.max n 1)
       | None => n ← int_of_group g0; Return (Z.max n 1)
       end;
  Return (add ctx "pixelate" (VList [VInt (Z.max n0 1); VInt n1]),
          hc_extras ctx).

(** The matcher of [meta|m(?!-?\d+)]: a full match leaves nothing after
    the [m] for the lookahead to reject. *)
Definition meta_pattern (token : string) : option (list (option string)) :=
  if String.eqb token "meta" || String.eqb token "m" then Some [] else None.

(** [meta]. *)
Definition meta (ctx : HandlerContext)
  : outcome (TileFields * gmap string value) :=
  Return (add ctx "meta_level" (VInt 1), hc_extras ctx).

(** The matcher of [m(-?\d+)]. *)
Definition meta_absolute_pattern (token : string)
  : option (list (option string)) :=
  match strip_prefix "m" token with
  | Some rest =>
      let body := match strip_prefix "-" rest with
                  | Some body => body
                  | None => rest
                  end in
      if digits1 body then Some [Some rest] else None
  | None => None
  end.

(** [meta_absolute]; [MAX_META_DEPTH] is a constant of the absent
    [constants] module. *)
Definition meta_absolute (MAX_META_DEPTH : Z) (ctx : HandlerContext)
  : outcome (TileFields * gmap string value) :=
  g ← group_at ctx 0;
  level ← int_of_group g;
  if Z.abs level >? MAX_META_DEPTH
  then Throw (BadMetaVariant (name (hc_tile ctx)) (hc_variant ctx) level)
  else Return (add ctx "meta_level" (VInt level), hc_extras ctx).

(** [letter]. *)
Definition letter (ctx : HandlerContext)
  : outcome (TileFields * gmap string value) :=
  if negb (is_text (hc_tile ctx))
  then Throw (TileNotText (name (hc_tile ctx)) "letter")
  else if (2 <? String.length (drop_chars 5 (name (hc_tile ctx))))%nat
  then Throw (BadLetterVariant (name (hc_tile ctx)) "letter")
  else Return (list_to_map [("custom", VBool true);
                            ("custom_style", VStr "letter")],
               hc_extras ctx).

(** ** The help listing *)

(** The [hints] and [group] attributes of a [Handler], next to it. *)
Record HandlerDoc : Type := mkHandlerDoc {
  doc_handler : Handler;
  hints : list (string * string);
  group : string
}.

(** [VariantHandlers.all_variants]. *)
Definition all_variants (docs : list HandlerDoc) : list string :=
  doc ← docs; snd <$> hints doc.

(** [out.setdefault(group, []).append(repr)] on a dictionary kept in
    insertion order. *)
Fixpoint setdefault_append (out : list (string * list string))
    (g : string) (repr : string) : list (string * list string) :=
  match out with
  | [] => [(g, [repr])]
  | (g', reprs) :: out' =>
      if String.eqb g' g then (g', (reprs ++ [repr])%list) :: out'
      else (g', reprs) :: setdefault_append out' g repr
  end.

(** The context of a probe of [valid_variants].  The source passes the
    grid [[[[tile]]]] and the index [(0, 0)], each one level short of
    [RawGrid] and [GridIndex]; here they are padded to those types.  The
    handlers of [setup] read neither. *)
Definition mock_ctx (tile : RawTile) (tile_data_cache : gmap string TileData)
    (variant : string) (groups : list (option string)) : HandlerContext :=
  mkHandlerContext
    (mkContext tile [[[[tile]]]] (0, 0, 0, 0) tile_data_cache
       {[ "disallow_custom_directions" := VBool true ]})
    ∅ variant groups ∅.

(** The inner loop of [valid_variants] over the hints of one handler.
    [is_variant_error] is the test of [except errors.VariantError]: the
    class hierarchy of the absent [errors] module. *)
Fixpoint probe_hints (is_variant_error : error -> bool) (doc : HandlerDoc)
    (tile : RawTile) (tile_data_cache : gmap string TileData)
    (hs : list (string * string)) (out : list (string * list string))
  : result (list (string * list string)) :=
  match hs with
  | [] => Ok out
  | (variant, repr) :: hs' =>
      match Handler_match (doc_handler doc) variant with
      | Some groups =>
          match handle (doc_handler doc)
                  (mock_ctx tile tile_data_cache variant groups) with
          | Ok _ =>
              probe_hints is_variant_error doc tile tile_data_cache hs'
                (setdefault_append out (group doc) repr)
          | Raise e =>
              if is_variant_error e
              then probe_hints is_variant_error doc tile tile_data_cache hs' out
              else Raise e
          end
      | None =>
          probe_hints is_variant_error doc tile tile_data_cache hs'
            (setdefault_append out (group doc) repr)
      end
  end.

(** The outer loop of [valid_variants], from a given [out]. *)
Fixpoint probe_handlers (is_variant_error : error -> bool)
    (docs : list HandlerDoc) (tile : RawTile)
    (tile_data_cache : gmap string TileData)
    (out : list (string * list string))
  : result (list (string * list string)) :=
  match docs with
  | [] => Ok out
  | doc :: docs' =>
      out' ← probe_hints is_variant_error doc tile tile_data_cache
               (hints doc) out;
      probe_handlers is_variant_error docs' tile tile_data_cache out'
  end.

(** [VariantHandlers.valid_variants]. *)
Definition valid_variants (is_variant_error : error -> bool)
    (docs : list HandlerDoc) (tile : RawTile)
    (tile_data_cache : gmap string TileData)
  : result (list (string * list string)) :=
  probe_handlers is_variant_error docs tile tile_data_cache [].

(** A representation is listed under a group of the output of
    [valid_variants]. *)
Definition listed (out : list (string * list string)) (g repr : string)
  : Prop :=
  exists reprs, (g, reprs) ∈ out /\ repr ∈ reprs.

(** Whether the probe of a hint lets it into the listing: the pattern
    rejects the token, or the handler returns on the mock context. *)
Definition probe_passes (doc : HandlerDoc) (tile : RawTile)
    (tile_data_cache : gmap string TileData) (variant : string) : bool :=
  match Handler_match (doc_handler doc) variant with
  | Some groups =>
      negb (is_Raise (handle (doc_handler doc)
                        (mock_ctx tile tile_data_cache variant groups)))
  | None => true
  end.

(** A class test to run [valid_variants] with: the built-in exceptions are
    no [VariantError]. *)
Definition not_builtin (e : error) : bool :=
  match e with
  | IndexError | KeyError | ValueError | AttributeError => false
  | _ => true
  end.

(** The handler [directions] with one hint that its pattern accepts and one
    that it rejects, and a handler that runs into a built-in exception. *)
Definition directions_doc (K : Constants) : HandlerDoc :=
  mkHandlerDoc (mkHandler (keys_pattern (DIRECTION_VARIANTS K)) (directions K))
    [("r", "`right`"); ("dir", "`up` / `down`")] "Alternate sprites".

Definition broken_doc : HandlerDoc :=
  mkHandlerDoc (mkHandler (word_pattern "oops") (fun _ => Raise KeyError))
    [("oops", "`oops`")] "Other".

(** Whether a text contains the character [/]. *)
Fixpoint has_slash (s : string) : bool :=
  match s with
  | EmptyString => false
  | String c s' => Ascii.eqb c "/" || has_slash s'
  end.

(** ** The variant codec *)

(** C3: for every direction of 0, 8, 16, 24 and every animation of -1 to 6,
    splitting the joined variant gives the pair back; the sleep frame -1 is
    the remainder 7 that [split_variant] reads as the next direction with
    animation -1. *)
Theorem split_join_variant (dir anim : Z) :
  In dir directions_conv -> In anim animations_conv ->
  split_variant (Some (join_variant dir anim)) = (dir, anim).
Proof.
  unfold directions_conv, animations_conv; simpl.
  intros Hd Ha.
  repeat (destruct Hd as [<- | Hd]; [|]); try contradiction;
    repeat (destruct Ha as [<- | Ha]; [|]); try contradiction;
    reflexivity.
Qed.

Lemma split_join_variant_witness :
  In 24 directions_conv /\ In (-1) animations_conv /\
  split_variant (Some (join_variant 24 (-1))) = (24, -1).
Proof.
  split; [simpl; lia |].
  split; [simpl; lia |].
  apply (split_join_variant 24 (-1)); simpl; lia.
Defined.

(** C4 (as stated): the joined variant of direction 24 and animation 6 is 30,
    not 6. *)
Lemma join_variant_24_6_not_6 :
  join_variant 24 6 = 30 /\ join_variant 24 6 <> 6.
Proof. split; [reflexivity | discriminate]. Qed.

(** C4 (amended): [join_variant] is defined on all integers and returns the
    sum of its arguments modulo 32: a value in 0..31 that differs from the
    sum by a multiple of 32.  When the sum lies in 0..31 it is the sum
    itself; the joined variant of 24 and 6 is 30. *)
Theorem join_variant_exact (dir anim : Z) :
  0 <= join_variant dir anim <= 31
  /\ (exists k, dir + anim = 32 * k + join_variant dir anim)
  /\ (0 <= dir + anim <= 31 -> join_variant dir anim = dir + anim)
  /\ join_variant 24 6 = 30.
Proof.
  unfold join_variant.
  split; [pose proof (Z.mod_pos_bound (dir + anim) 32); lia |].
  split; [exists ((dir + anim) / 32); apply Z.div_mod; lia |].
  split; [intros Hsum; apply Z.mod_small; lia | reflexivity].
Qed.

Lemma join_variant_exact_witness :
  0 <= 24 + 6 <= 31 /\ join_variant 24 6 = 24 + 6
  /\ 0 <= join_variant 0 (-1) <= 31.
Proof.
  split; [lia |].
  destruct (join_variant_exact 24 6) as (_ & _ & Hsum & _).
  split; [apply Hsum; lia |].
  destruct (join_variant_exact 0 (-1)) as (Hrange & _). exact Hrange.
Defined.

(** ** The adjacency query *)

Lemma bind_Ok {A B : Type} (a : A) (k : A -> result B) :
  (Ok a ≫= k) = k a.
Proof. reflexivity. Qed.

Lemma bind_Raise {A B : Type} (e : error) (k : A -> result B) :
  (Raise e ≫= k) = Raise e.
Proof. reflexivity. Qed.

Lemma py_getitem_lookup {A : Type} (l : list A) (i : Z) (a : A) :
  0 <= i -> l !! Z.to_nat i = Some a -> py_getitem l i = Ok a.
Proof.
  intros Hi Ha. unfold py_getitem.
  destruct (i <? 0) eqn:E; [apply Z.ltb_lt in E; lia |].
  rewrite E, Ha. reflexivity.
Qed.

Lemma lookup_in_range {A : Type} (l : list A) (i : Z) :
  0 <= i < len l -> exists a, l !! Z.to_nat i = Some a.
Proof.
  intros Hi. unfold len in Hi.
  destruct (lookup_lt_is_Some_2 l (Z.to_nat i)) as [a Ha]; [lia |].
  exists a. exact Ha.
Qed.

Lemma joins_iff (origin occupant : RawTile) :
  joins origin occupant = true <->
  name occupant = name origin \/ name occupant = "level"
  \/ name occupant = "border".
Proof.
  unfold joins. rewrite !orb_true_iff, !String.eqb_eq. tauto.
Qed.

(** C6 (as stated): on a layer whose second row is shorter than the first,
    the coordinate x = 1, y = 1 is not negative and lies within the rows and
    within the width of the first row, yet the query returns neither the
    border flag nor the identifier test: it raises [IndexError]. *)
Lemma is_adjacent_short_row_raises :
  let wall := tile_of "wall" [] in
  let layer := [[wall; wall]; [wall]] in
  let ctx := mkContext wall [[layer]] (0, 0, 0, 0) sample_cache ∅ in
  0 <= 1 < len layer
  /\ (exists row0, layer !! 0%nat = Some row0 /\ 0 <= 1 < len row0)
  /\ is_adjacent ctx (0, 1, 1, 0) = Raise IndexError
  /\ (forall b, is_adjacent ctx (0, 1, 1, 0) <> Ok b).
Proof.
  intros wall layer ctx.
  split; [unfold len; cbn; lia |].
  split; [exists [wall; wall]; split; [reflexivity | unfold len; cbn; lia] |].
  assert (Hrun : is_adjacent ctx (0, 1, 1, 0) = Raise IndexError)
    by reflexivity.
  split; [exact Hrun |]. intros b. rewrite Hrun. discriminate.
Qed.

(** C6 (amended): for a query whose step and layer exist in the grid, on a
    layer whose rows all have the width of its first row, a coordinate with
    a negative [x] or [y], or with [y] past the rows or [x] past the
    columns, yields the boolean value of the [tile_borders] flag (false
    when the flag is absent, true when it is [True]); any other coordinate
    yields true exactly when the occupant of the cell has the origin's
    identifier or is named [level] or [border]. *)
Theorem is_adjacent_spec (ctx : ContextBase) (d x y l cols : Z)
    (step : list (list (list RawTile))) (layer : list (list RawTile)) :
  py_getitem (ctx_grid ctx) d = Ok step ->
  py_getitem step l = Ok layer ->
  Forall (fun row => len row = cols) layer ->
  let border := flag_set (ctx_flags ctx) "tile_borders" in
  (x < 0 \/ y < 0 \/ len layer <= y \/ cols <= x ->
   is_adjacent ctx (d, x, y, l) = Ok border)
  /\ (0 <= x < cols -> 0 <= y < len layer ->
      exists row occupant,
        layer !! Z.to_nat y = Some row /\ row !! Z.to_nat x = Some occupant
        /\ is_adjacent ctx (d, x, y, l)
           = Ok (joins (ctx_tile ctx) occupant)
        /\ (joins (ctx_tile ctx) occupant = true <->
            name occupant = name (ctx_tile ctx)
            \/ name occupant = "level" \/ name occupant = "border"))
  /\ (ctx_flags ctx !! "tile_borders" = None -> border = false)
  /\ (ctx_flags ctx !! "tile_borders" = Some (VBool true) -> border = true).
Proof.
  intros Hstep Hlayer Hrect border.
  assert (Hrow0 : 0 < len layer -> exists row0,
             py_getitem layer 0 = Ok row0 /\ len row0 = cols).
  { intros Hpos. destruct (lookup_in_range layer 0) as [row0 H0]; [lia |].
    exists row0. split; [apply py_getitem_lookup; [lia | exact H0] |].
    rewrite Forall_forall in Hrect. apply Hrect.
    apply list_elem_of_lookup. eauto. }
  split; [| split; [| split]].
  - intros Hout. unfold is_adjacent. rewrite Hstep, bind_Ok.
    destruct (x <? 0) eqn:Ex; [reflexivity |].
    destruct (y <? 0) eqn:Ey; [reflexivity |].
    apply Z.ltb_ge in Ex, Ey.
    rewrite Hlayer, bind_Ok.
    destruct (y >=? len layer) eqn:Eyl; [reflexivity |].
    rewrite Z.geb_leb in Eyl. apply Z.leb_gt in Eyl.
    destruct Hrow0 as (row0 & -> & Hw); [lia |].
    rewrite bind_Ok.
    destruct (x >=? len row0) eqn:Exl; [reflexivity |].
    rewrite Z.geb_leb in Exl. apply Z.leb_gt in Exl. lia.
  - intros Hx Hy.
    destruct (lookup_in_range layer y Hy) as [row Hrow].
    assert (Hw : len row = cols).
    { rewrite Forall_forall in Hrect. apply Hrect.
      apply list_elem_of_lookup. eauto. }
    destruct (lookup_in_range row x) as [occupant Hocc]; [lia |].
    exists row, occupant. split; [exact Hrow |]. split; [exact Hocc |].
    split; [| apply joins_iff].
    unfold is_adjacent. rewrite Hstep, bind_Ok.
    destruct (x <? 0) eqn:Ex; [apply Z.ltb_lt in Ex; lia |].
    destruct (y <? 0) eqn:Ey; [apply Z.ltb_lt in Ey; lia |].
    rewrite Hlayer, bind_Ok.
    destruct (y >=? len layer) eqn:Eyl;
      [rewrite Z.geb_leb in Eyl; apply Z.leb_le in Eyl; lia |].
    destruct Hrow0 as (row0 & -> & Hw0); [lia |].
    rewrite bind_Ok.
    destruct (x >=? len row0) eqn:Exl;
      [rewrite Z.geb_leb in Exl; apply Z.leb_le in Exl; lia |].
    rewrite (py_getitem_lookup layer y row) by (lia || exact Hrow).
    rewrite bind_Ok.
    rewrite (py_getitem_lookup row x occupant) by (lia || exact Hocc).
    reflexivity.
  - intros Hnone. unfold border, flag_set. rewrite Hnone. reflexivity.
  - intros Hset. unfold border, flag_set. rewrite Hset. reflexivity.
Qed.

Lemma is_adjacent_spec_witness :
  let ctx := mkContext (tile_of "wall" [])
               [[[[tile_of "wall" []; tile_of "flag" []]]]]
               (0, 0, 0, 0) sample_cache ∅ in
  is_adjacent ctx (0, 2, 0, 0) = Ok false
  /\ is_adjacent ctx (0, 1, 0, 0) = Ok false
  /\ is_adjacent ctx (0, 0, 0, 0) = Ok true.
Proof.
  intros ctx.
  destruct (is_adjacent_spec ctx 0 2 0 0 2
              [[[tile_of "wall" []; tile_of "flag" []]]]
              [[tile_of "wall" []; tile_of "flag" []]]) as (Hout & _);
    [reflexivity | reflexivity | repeat constructor |].
  split; [apply Hout; lia |].
  split; reflexivity.
Defined.

(** ** The default factory *)

Lemma and_then_Ok (a b c : bool) (r : result bool) :
  (a = true -> b = true -> r = Ok c) ->
  and_then a b r = Ok (a && b && c).
Proof.
  intros H. destruct a, b; simpl; auto.
Qed.

(** C7: on a tile whose tiling category auto-tiles, each diagonal bit of the
    key is the conjunction of its two cardinal joins and of the join of the
    diagonal cell, which is queried only when both cardinals join; the
    fallback variant is the table's entry for the four cardinal joins alone,
    and the variant is the entry for the eight-bit key, or the fallback when
    the table has no such key. *)
Theorem default_auto_tiling (K : Constants) (ctx : ContextBase)
    (td : TileData) (d y t x : Z) (r u l dn ru ul ld dr : bool) (fb : Z) :
  name (ctx_tile ctx) <> "-" ->
  tile_data ctx = Some td ->
  contains (AUTO_TILINGS K) (tiling td) = true ->
  ctx_index ctx = (d, y, t, x) ->
  is_adjacent ctx (d, x + 1, y, t) = Ok r ->
  is_adjacent ctx (d, x, y - 1, t) = Ok u ->
  is_adjacent ctx (d, x - 1, y, t) = Ok l ->
  is_adjacent ctx (d, x, y + 1, t) = Ok dn ->
  (r = true -> u = true -> is_adjacent ctx (d, x + 1, y - 1, t) = Ok ru) ->
  (u = true -> l = true -> is_adjacent ctx (d, x - 1, y - 1, t) = Ok ul) ->
  (l = true -> dn = true -> is_adjacent ctx (d, x - 1, y + 1, t) = Ok ld) ->
  (dn = true -> r = true -> is_adjacent ctx (d, x + 1, y + 1, t) = Ok dr) ->
  dict_get (TILING_VARIANTS K) (r, u, l, dn, false, false, false, false)
    = Some fb ->
  exists fields,
    default_factory K ctx = Ok fields
    /\ fields !! "variant_fallback" = Some (VInt fb)
    /\ fields !! "variant_number" =
       Some (VInt
               match dict_get (TILING_VARIANTS K)
                       (r, u, l, dn,
                        r && u && ru, u && l && ul,
                        l && dn && ld, dn && r && dr)
               with
               | Some v => v
               | None => fb
               end).
Proof.
  intros Hname Htd Hauto Hidx Hr Hu Hl Hdn Hru Hul Hld Hdr Hfb.
  assert (Htile : auto_tile K ctx =
            Ok (dict_get_default (TILING_VARIANTS K)
                  (r, u, l, dn, r && u && ru, u && l && ul,
                   l && dn && ld, dn && r && dr) fb, fb)).
  { unfold auto_tile. rewrite Hidx, Hr, bind_Ok, Hu, bind_Ok, Hl, bind_Ok,
      Hdn, bind_Ok.
    unfold dict_getitem. rewrite Hfb, bind_Ok.
    rewrite (and_then_Ok r u ru) by assumption. rewrite bind_Ok.
    rewrite (and_then_Ok u l ul) by assumption. rewrite bind_Ok.
    rewrite (and_then_Ok l dn ld) by assumption. rewrite bind_Ok.
    rewrite (and_then_Ok dn r dr) by assumption. rewrite bind_Ok.
    reflexivity. }
  unfold default_factory.
  destruct (String.eqb (name (ctx_tile ctx)) "-") eqn:E;
    [apply String.eqb_eq in E; contradiction |].
  rewrite Htd, Hauto, Htile, bind_Ok.
  eexists. split; [reflexivity |].
  split; [reflexivity |].
  unfold dict_get_default. reflexivity.
Qed.

Lemma default_auto_tiling_witness :
  let wall := tile_of "wall" [] in
  let ctx := mkContext wall
               [[[[wall; wall; wall]; [wall; wall; wall]; [wall; wall; wall]]]]
               (0, 1, 0, 1) sample_cache ∅ in
  exists fields,
    default_factory sample_constants ctx = Ok fields
    /\ fields !! "variant_fallback" = Some (VInt 15)
    /\ fields !! "variant_number" = Some (VInt 46).
Proof.
  intros wall ctx.
  destruct (default_auto_tiling sample_constants ctx wall_data 0 1 0 1
              true true true true true true true true 15)
    as (fields & Hf & Hfb & Hv);
    try reflexivity; try discriminate.
  exists fields. split; [exact Hf |]. split; [exact Hfb | exact Hv].
Defined.

(** ** The finalizer *)

(** C9 (as stated): with no [default_to_letters] flag, a custom tile with a
    two-character name and no style gets the style [noun], not [letter]. *)
Lemma finalize_two_characters_noun :
  let tile := mkFullTile "text_ab" {[ "custom" := VBool true ]} in
  ft_custom tile = true
  /\ ft_custom_style tile = None
  /\ String.length (drop_chars 5 (ft_name tile)) = 2%nat
  /\ exists tile' names,
       finalize tile ∅ None = Ok (tile', names)
       /\ ft_custom_style tile' = Some (VStr "noun")
       /\ ft_custom_style tile' <> Some (VStr "letter").
Proof.
  intros tile. repeat split.
  eexists _, _. split; [reflexivity |]. split; [reflexivity | discriminate].
Qed.

(** C9 (amended): for every custom tile whose style is unset when the
    finalizer runs, the finalizer assigns [letter] when the name after its
    five-character prefix has exactly two characters and the
    [default_to_letters] flag is set, and [noun] otherwise. *)
Theorem finalize_default_style (tile : FullTile) (flags : gmap string value)
    (extra_names : ExtraNames) :
  ft_custom tile = true ->
  ft_custom_style tile = None ->
  exists tile' names,
    finalize tile flags extra_names = Ok (tile', names)
    /\ ft_custom_style tile' =
       Some (VStr (if (String.length (drop_chars 5 (ft_name tile)) =? 2)%nat
                      && flag_set flags "default_to_letters"
                   then "letter" else "noun")).
Proof.
  intros Hcustom Hstyle.
  eexists _, _. split; [reflexivity |].
  unfold finalize_style. rewrite Hcustom, Hstyle.
  rewrite bool_decide_eq_true_2 by reflexivity. cbn [andb].
  destruct ((String.length (drop_chars 5 (ft_name tile)) =? 2)%nat
            && flag_set flags "default_to_letters");
    unfold ft_custom_style, set_custom_style; cbn [ft_fields];
    rewrite lookup_insert_eq; reflexivity.
Qed.

Lemma finalize_default_style_witness :
  let tile := mkFullTile "text_ab" {[ "custom" := VBool true ]} in
  let flags : gmap string value := {[ "default_to_letters" := VBool true ]} in
  exists tile' names,
    finalize tile flags None = Ok (tile', names)
    /\ ft_custom_style tile' = Some (VStr "letter").
Proof.
  intros tile flags.
  destruct (finalize_default_style tile flags None)
    as (tile' & names & Hf & Hs); [reflexivity | reflexivity |].
  exists tile', names. split; [exact Hf | exact Hs].
Defined.

(** ** The handlers for alternate sprites *)

Lemma is_digit_not_minus (c : ascii) :
  is_digit c = true -> Ascii.eqb "-" c = false.
Proof.
  intros H. destruct (Ascii.eqb "-" c) eqn:E; [| reflexivity].
  apply Ascii.eqb_eq in E. subst c. discriminate H.
Qed.

(** A token accepted by [\d{1,2}] is read by [int] without error. *)
Lemma raw_variant_pattern_int (token : string)
    (groups : list (option string)) :
  raw_variant_pattern token = Some groups ->
  py_int token = Ok (digits_value token 0) /\ 0 <= digits_value token 0.
Proof.
  unfold raw_variant_pattern. intros H.
  destruct (all_digits token) eqn:Hd; [| discriminate H].
  destruct token as [| c rest]; [discriminate H |].
  simpl in Hd. apply andb_true_iff in Hd as [Hc Hrest].
  split.
  - unfold py_int. cbn [strip_prefix]. rewrite (is_digit_not_minus c Hc).
    unfold digits1. cbn [String.eqb all_digits]. rewrite Hc, Hrest.
    reflexivity.
  - assert (Hge : forall s acc, all_digits s = true -> 0 <= acc ->
                    0 <= digits_value s acc).
    { induction s as [| a s IH]; intros acc Hs Hacc; simpl; [exact Hacc |].
      simpl in Hs. apply andb_true_iff in Hs as [Ha Hs].
      apply IH; [exact Hs |].
      unfold is_digit in Ha. apply andb_true_iff in Ha as [Ha _].
      apply N.leb_le in Ha. lia. }
    apply Hge; [simpl; rewrite Hc, Hrest; reflexivity | lia].
Qed.

(** C10: on a tile that has a static record, the handler of a one- or
    two-digit token returns and never raises: the variant number is the
    token's value when the validation accepts it and -1 when the validation
    raises, as it does for 47 or more on an auto-tiling category and for a
    direction on a category without directions. *)
Theorem raw_variant_never_raises (K : Constants) (ctx : HandlerContext)
    (td : TileData) (groups : list (option string)) :
  hc_tile_data ctx = Some td ->
  raw_variant_pattern (hc_variant ctx) = Some groups ->
  exists n v,
    py_int (hc_variant ctx) = Ok n
    /\ raw_variant K ctx
       = Ok ({[ "variant_number" := VInt v ]}, hc_extras ctx)
    /\ v = (if is_Raise (raw_variant_check K ctx (tiling td) n)
            then -1 else n)
    /\ (contains (AUTO_TILINGS K) (tiling td) = true -> 47 <= n -> v = -1)
    /\ (contains (AUTO_TILINGS K) (tiling td) = false ->
        contains (DIRECTION_TILINGS K) (tiling td) = false ->
        (split_variant (Some n)).1 <> 0 -> v = -1).
Proof.
  intros Htd Hpat.
  destruct (raw_variant_pattern_int _ _ Hpat) as [Hint Hpos].
  set (n := digits_value (hc_variant ctx) 0) in *.
  exists n, (if is_Raise (raw_variant_check K ctx (tiling td) n)
             then -1 else n).
  split; [exact Hint |].
  split; [| split; [reflexivity | split]].
  - unfold raw_variant. rewrite Hint, bind_Ok, Htd.
    destruct (raw_variant_check K ctx (tiling td) n); reflexivity.
  - intros Hauto Hn. unfold raw_variant_check. rewrite Hauto.
    destruct (n >=? 47) eqn:E; [reflexivity |].
    rewrite Z.geb_leb in E. apply Z.leb_gt in E. lia.
  - intros Hauto Hdir Hsplit. unfold raw_variant_check. rewrite Hauto.
    destruct (split_variant (Some n)) as [dir anim]. simpl in Hsplit.
    apply Z.eqb_neq in Hsplit. rewrite Hsplit, Hdir. reflexivity.
Qed.

Lemma raw_variant_never_raises_witness :
  let ctx := mkHandlerContext
               (mkContext (tile_of "wall" ["47"]) [[[[tile_of "wall" ["47"]]]]]
                  (0, 0, 0, 0) sample_cache ∅)
               ∅ "47" [] ∅ in
  raw_variant sample_constants ctx = Ok ({[ "variant_number" := VInt (-1) ]}, ∅).
Proof.
  intros ctx.
  destruct (raw_variant_never_raises sample_constants ctx wall_data [])
    as (n & v & Hint & Hraw & Hv & _); [reflexivity | reflexivity |].
  rewrite Hraw, Hv.
  injection Hint as <-. reflexivity.
Defined.

(** C8 (as stated): with no flag at all, a direction token on a tile whose
    tiling category has no directions raises nothing: the handler returns
    the custom direction, the tile resolves, and so does the raw numeric
    direction token. *)
Lemma direction_without_flags_accepted :
  let tile := tile_of "flag" ["r"] in
  let base := mkContext tile [[[[tile]]]] (0, 0, 0, 0) sample_cache ∅ in
  let ctx := mkHandlerContext base ∅ "r" [] ∅ in
  hc_tile_data ctx = Some flag_data
  /\ contains (DIRECTION_TILINGS sample_constants) (tiling flag_data) = false
  /\ directions sample_constants ctx
     = Ok ({[ "custom_direction" := VInt 0 ]}, ∅)
  /\ is_Raise (handle_tile (setup sample_constants) tile [[[[tile]]]]
                 (0, 0, 0, 0) sample_cache ∅ None) = false
  /\ is_Raise (handle_tile (setup sample_constants) (tile_of "flag" ["8"])
                 [[[[tile_of "flag" ["8"]]]]] (0, 0, 0, 0) sample_cache ∅ None)
     = false.
Proof.
  intros tile base ctx. repeat split; vm_compute; reflexivity.
Qed.

(** C8 (amended): a direction token on a tile whose tiling category has no
    directions, or that has no static record, with [ignore_bad_directions]
    unset, raises [BadTilingVariant] naming the tile and the token only when
    the [disallow_custom_directions] flag is set and the tile is not a text
    tile; otherwise the handler raises nothing and returns the custom
    direction alone. *)
Theorem directions_without_direction_tiling (K : Constants)
    (ctx : HandlerContext) (dir : Z) :
  dict_get (DIRECTION_VARIANTS K) (hc_variant ctx) = Some dir ->
  match hc_tile_data ctx with
  | Some td => contains (DIRECTION_TILINGS K) (tiling td)
  | None => false
  end = false ->
  flag_set (hc_flags ctx) "ignore_bad_directions" = false ->
  (flag_set (hc_flags ctx) "disallow_custom_directions" = true ->
   is_text (hc_tile ctx) = false ->
   exists shown,
     directions K ctx
     = Raise (BadTilingVariant (ArgTile (hc_tile ctx)) (hc_variant ctx) shown))
  /\ (flag_set (hc_flags ctx) "disallow_custom_directions" = false
      \/ is_text (hc_tile ctx) = true ->
      directions K ctx
      = Ok ({[ "custom_direction" := VInt dir ]}, hc_extras ctx)).
Proof.
  intros Hdir Htiling Hignore.
  assert (Hshape : directions K ctx =
            if flag_set (hc_flags ctx) "disallow_custom_directions"
               && negb (is_text (hc_tile ctx))
            then Raise (BadTilingVariant (ArgTile (hc_tile ctx))
                          (hc_variant ctx) (VStr "<missing>"))
            else Ok ({[ "custom_direction" := VInt dir ]}, hc_extras ctx)).
  { unfold directions, dict_getitem. rewrite Hdir, bind_Ok.
    destruct (split_variant (field_int (hc_fields ctx) "variant_number")).
    rewrite Htiling, Hignore. reflexivity. }
  rewrite Hshape. split.
  - intros -> ->. eexists. reflexivity.
  - intros [-> | ->]; [reflexivity |].
    rewrite andb_false_r. reflexivity.
Qed.

Lemma directions_without_direction_tiling_witness :
  let tile := tile_of "flag" ["r"] in
  let flags : gmap string value :=
    {[ "disallow_custom_directions" := VBool true ]} in
  let base := mkContext tile [[[[tile]]]] (0, 0, 0, 0) sample_cache flags in
  let ctx := mkHandlerContext base ∅ "r" [] ∅ in
  exists shown,
    directions sample_constants ctx
    = Raise (BadTilingVariant (ArgTile tile) "r" shown).
Proof.
  intros tile flags base ctx.
  destruct (directions_without_direction_tiling sample_constants ctx 0)
    as [Hraise _]; [reflexivity | reflexivity | reflexivity |].
  apply Hraise; reflexivity.
Defined.

(** ** Merging and the filters list *)

Lemma update_lookup (fields partial : TileFields) (k : string) :
  update fields partial !! k =
  match partial !! k with
  | Some v => Some v
  | None => fields !! k
  end.
Proof.
  unfold update. rewrite lookup_union.
  destruct (partial !! k), (fields !! k); reflexivity.
Qed.

(** The filters already accumulated: those of the list under the [filters]
    key, none when the key is absent. *)
Lemma add_filters (ctx : HandlerContext) (dst : string) (var : value) :
  update (hc_fields ctx) (add ctx dst var) !! "filters" =
  Some (VList (match hc_fields ctx !! "filters" with
               | Some (VList f) => f
               | _ => []
               end ++ [VList [VStr dst; var]])).
Proof.
  rewrite update_lookup. unfold add.
  destruct (hc_fields ctx !! "filters") as [[]|];
    rewrite lookup_singleton_eq; reflexivity.
Qed.

Lemma add_other (ctx : HandlerContext) (dst : string) (var : value)
    (k : string) :
  k <> "filters" ->
  update (hc_fields ctx) (add ctx dst var) !! k = hc_fields ctx !! k.
Proof.
  intros Hk. rewrite update_lookup. unfold add.
  destruct (hc_fields ctx !! "filters") as [[]|];
    rewrite lookup_singleton_ne by congruence; reflexivity.
Qed.

(** The tokens [neon] and [neon2.0] resolved on one tile by the handlers of
    [setup]. *)
Example neon_twice :
  let tile := tile_of "baba" ["neon"; "neon2.0"] in
  exists full names,
    handle_tile (setup sample_constants) tile [[[[tile]]]] (0, 0, 0, 0)
      sample_cache ∅ None = Ok (full, names)
    /\ ft_fields full !! "filters" =
       Some (VList [VList [VStr "neon"; VFloat (QArith_base.Qmake 7 5)];
                    VList [VStr "neon"; VFloat (QArith_base.Qmake 2 1)]]).
Proof.
  intros tile. eexists _, _. split; vm_compute; reflexivity.
Qed.

(** ** Per-tile resolution *)

Lemma scan_handlers_app (hs1 hs2 : list Handler) (base : ContextBase)
    (variant : string) (st : ScanState) :
  scan_handlers (hs1 ++ hs2) base variant st =
  scan_handlers hs1 base variant st ≫= scan_handlers hs2 base variant.
Proof.
  revert st. induction hs1 as [| h hs1 IH]; intros [[fields extras] failed];
    [reflexivity |].
  cbn [app scan_handlers].
  destruct (Handler_match h variant) as [groups |]; [| apply IH].
  destruct (handle h _) as [[partial extras'] | e]; [| reflexivity].
  rewrite !bind_Ok. apply IH.
Qed.

Lemma scan_handlers_no_match (hs : list Handler) (base : ContextBase)
    (variant : string) (st : ScanState) :
  Forall (fun h => Handler_match h variant = None) hs ->
  scan_handlers hs base variant st = Ok st.
Proof.
  induction 1 as [| h hs Hh _ IH]; [reflexivity |].
  destruct st as [[fields extras] failed].
  cbn [scan_handlers]. rewrite Hh. exact IH.
Qed.

(** The handlers whose pattern rejects the token play no part in the
    scan. *)
Lemma scan_handlers_filter (hs : list Handler) (base : ContextBase)
    (variant : string) (st : ScanState) :
  scan_handlers hs base variant st =
  scan_handlers (List.filter (matches variant) hs) base variant st.
Proof.
  revert st. induction hs as [| h hs IH]; intros [[fields extras] failed];
    [reflexivity |].
  cbn [List.filter]. unfold matches at 1.
  destruct (Handler_match h variant) as [groups |] eqn:Hm.
  - cbn [scan_handlers]. rewrite Hm.
    destruct (handle h _) as [[partial extras'] | e]; [| reflexivity].
    rewrite !bind_Ok. apply IH.
  - cbn [scan_handlers]. rewrite Hm. apply IH.
Qed.

Lemma filter_rev_matches (variant : string) (hs : list Handler) :
  List.filter (matches variant) (rev hs)
  = rev (List.filter (matches variant) hs).
Proof.
  induction hs as [| h hs IH]; [reflexivity |].
  cbn [rev List.filter]. rewrite List.filter_app, IH. cbn [List.filter].
  destruct (matches variant h); cbn [rev]; [reflexivity |].
  apply app_nil_r.
Qed.

Lemma handle_variant_filter (hs : list Handler) (base : ContextBase)
    (variant : string) (st : TileFields * gmap string value) :
  handle_variant hs base variant st =
  handle_variant (List.filter (matches variant) hs) base variant st.
Proof.
  unfold handle_variant.
  rewrite scan_handlers_filter, filter_rev_matches. reflexivity.
Qed.

(** C1 (as stated): of two handlers that both accept the token [xy], the one
    registered first decides [color_index], and the field [general] that
    only it sets is merged too, although the handler registered after it is
    scanned first. *)
Lemma overlapping_handlers_both_merged :
  let H := register (register new_handlers None general_handler) None
             specific_handler in
  let base := mkContext (tile_of "baba" ["xy"]) [] (0, 0, 0, 0) ∅ ∅ in
  handlers H = [general_handler; specific_handler]
  /\ matches "xy" general_handler = true
  /\ matches "xy" specific_handler = true
  /\ exists fields extras,
       handle_variant (handlers H) base "xy" (∅, ∅) = Ok (fields, extras)
       /\ fields !! "color_index" = Some (color_value (1, 1))
       /\ fields !! "color_index" <> Some (color_value (2, 2))
       /\ fields !! "general" = Some (VBool true).
Proof.
  intros H base. repeat split.
  eexists _, _. split; [vm_compute; reflexivity |].
  split; [reflexivity |]. split; [discriminate | reflexivity].
Qed.

(** C1 (amended): the scan goes through the handlers in reverse registration
    order and merges the result of every handler whose pattern accepts the
    token, each one called on the accumulator as the handlers scanned before
    it left it; the handlers that reject the token play no part.  When two
    handlers accept the token, the one at the earlier position of the
    registry (registered earlier, or inserted at an earlier position) is
    merged last: its fields win, and the fields that only the other one
    sets stay. *)
Theorem overlapping_handlers_merge (A B C : list Handler) (h1 h2 : Handler)
    (base : ContextBase) (variant : string)
    (fields : TileFields) (extras : gmap string value)
    (g1 g2 : list (option string)) (r1 r2 : TileFields)
    (e1 e2 : gmap string value) :
  Forall (fun h => Handler_match h variant = None) (A ++ B ++ C) ->
  Handler_match h1 variant = Some g1 ->
  Handler_match h2 variant = Some g2 ->
  handle h2 (mkHandlerContext base fields variant g2 extras) = Ok (r2, e2) ->
  handle h1 (mkHandlerContext base (update fields r2) variant g1 e2)
    = Ok (r1, e1) ->
  (forall hs st,
     handle_variant hs base variant st =
     handle_variant (List.filter (matches variant) hs) base variant st)
  /\ handle_variant (A ++ h1 :: B ++ h2 :: C) base variant (fields, extras)
     = Ok (update (update fields r2) r1, e1)
  /\ (forall k v, r1 !! k = Some v ->
        update (update fields r2) r1 !! k = Some v)
  /\ (forall k v, r1 !! k = None -> r2 !! k = Some v ->
        update (update fields r2) r1 !! k = Some v).
Proof.
  intros Hnone Hm1 Hm2 Hh2 Hh1.
  apply Forall_app in Hnone as [HA HBC].
  apply Forall_app in HBC as [HB HC].
  split; [intros hs st; apply handle_variant_filter |].
  split; [| split].
  - unfold handle_variant. cbn [fst snd].
    rewrite rev_app_distr. cbn [rev]. rewrite rev_app_distr. cbn [rev].
    rewrite <- !app_assoc. cbn [app].
    rewrite scan_handlers_app.
    rewrite scan_handlers_no_match by (apply Forall_rev; exact HC).
    rewrite bind_Ok. cbn [scan_handlers]. rewrite Hm2, Hh2, bind_Ok.
    rewrite scan_handlers_app.
    rewrite scan_handlers_no_match by (apply Forall_rev; exact HB).
    rewrite bind_Ok. cbn [scan_handlers]. rewrite Hm1, Hh1, bind_Ok.
    rewrite scan_handlers_no_match by (apply Forall_rev; exact HA).
    reflexivity.
  - intros k v Hk. rewrite update_lookup, Hk. reflexivity.
  - intros k v Hk1 Hk2. rewrite !update_lookup, Hk1, Hk2. reflexivity.
Qed.

Lemma overlapping_handlers_merge_witness :
  let base := mkContext (tile_of "baba" ["xy"]) [] (0, 0, 0, 0) ∅ ∅ in
  exists fields,
    handle_variant [general_handler; specific_handler] base "xy" (∅, ∅)
    = Ok (fields, ∅)
    /\ fields !! "color_index" = Some (color_value (1, 1)).
Proof.
  intros base.
  destruct (overlapping_handlers_merge [] [] [] general_handler
              specific_handler base "xy" ∅ ∅ [] []
              (list_to_map [("color_index", color_value (1, 1));
                            ("general", VBool true)])
              {[ "color_index" := color_value (2, 2) ]} ∅ ∅)
    as (_ & Hrun & Hwin & _);
    [constructor | reflexivity | reflexivity | reflexivity | reflexivity |].
  eexists. split; [exact Hrun |].
  apply Hwin. reflexivity.
Defined.

(** Registration without [order] puts the handler last, registration with
    order 0 puts it first. *)
Lemma register_last (H : VariantHandlers) (h : Handler) :
  handlers (register H None h) = (handlers H ++ [h])%list.
Proof. reflexivity. Qed.

Lemma register_first (H : VariantHandlers) (h : Handler) :
  handlers (register H (Some 0) h) = h :: handlers H.
Proof.
  unfold register, py_insert. cbn [handlers].
  replace (Z.to_nat (if 0 <? 0 then _ else Z.min 0 (len (handlers H))))
    with O by (unfold len; cbn; lia).
  reflexivity.
Qed.

(** ** Merging during resolution *)




(** ** Unknown tokens *)

Lemma handle_variant_unknown (hs : list Handler) (base : ContextBase)
    (variant : string) (st : TileFields * gmap string value) :
  Forall (fun h => Handler_match h variant = None) hs ->
  handle_variant hs base variant st
  = Raise (UnknownVariant (ctx_tile base) variant).
Proof.
  intros Hnone. unfold handle_variant.
  rewrite scan_handlers_no_match by (apply Forall_rev; exact Hnone).
  reflexivity.
Qed.

Lemma apply_variants_app (hs : list Handler) (base : ContextBase)
    (vs1 vs2 : list string) (st : TileFields * gmap string value) :
  apply_variants hs base (vs1 ++ vs2) st =
  apply_variants hs base vs1 st ≫= apply_variants hs base vs2.
Proof.
  revert st. induction vs1 as [| v vs1 IH]; intros st; [reflexivity |].
  cbn [app apply_variants].
  destruct (handle_variant hs base v st) as [st' | e]; [| reflexivity].
  rewrite !bind_Ok. apply IH.
Qed.

(** The loop over the tokens raises as soon as it contains a token that no
    handler accepts: [UnknownVariant] for that token if the tokens before it
    went through, the earlier error otherwise. *)
Lemma apply_variants_unknown (hs : list Handler) (base : ContextBase)
    (pre post : list string) (variant : string)
    (st : TileFields * gmap string value) :
  Forall (fun h => Handler_match h variant = None) hs ->
  apply_variants hs base (pre ++ variant :: post) st =
  match apply_variants hs base pre st with
  | Ok _ => Raise (UnknownVariant (ctx_tile base) variant)
  | Raise e => Raise e
  end.
Proof.
  intros Hnone. rewrite apply_variants_app.
  destruct (apply_variants hs base pre st) as [st' | e]; [| reflexivity].
  rewrite bind_Ok. cbn [apply_variants].
  rewrite handle_variant_unknown by exact Hnone. reflexivity.
Qed.

Lemma handle_tile_unknown (H : VariantHandlers) (tile : RawTile)
    (pre post : list string) (variant : string) (grid : RawGrid)
    (index : GridIndex) (cache : gmap string TileData)
    (flags : gmap string value) (extra_names : ExtraNames) :
  variants tile = (pre ++ variant :: post)%list ->
  Forall (fun h => Handler_match h variant = None) (handlers H) ->
  handle_tile H tile grid index cache flags extra_names =
  match default_fields H (mkContext tile grid index cache flags) with
  | Ok fields =>
      match apply_variants (handlers H)
              (mkContext tile grid index cache flags) pre (fields, ∅) with
      | Ok _ => Raise (UnknownVariant tile variant)
      | Raise e => Raise e
      end
  | Raise e => Raise e
  end.
Proof.
  intros Hvs Hnone. unfold handle_tile.
  destruct (default_fields H _) as [fields | e]; [| reflexivity].
  rewrite bind_Ok, Hvs, apply_variants_unknown by exact Hnone.
  destruct (apply_variants _ _ pre _); reflexivity.
Qed.

(** A comprehension raises when its body raises on one of the elements,
    whatever the store at that point. *)
Lemma map_enumerate_raises {A B S : Type}
    (f : Z -> A -> S -> result (B * S)) (l : list A) (n : nat) (a : A) :
  l !! n = Some a ->
  (forall i s, exists e, f i a s = Raise e) ->
  forall i s, exists e, map_enumerate f i l s = Raise e.
Proof.
  intros Hl Hf. revert n Hl.
  induction l as [| b l IH]; intros n Hl i s; [discriminate Hl |].
  cbn [map_enumerate].
  destruct n as [| n].
  - injection Hl as ->. destruct (Hf i s) as [e ->]. exists e. reflexivity.
  - destruct (f i b s) as [[b' s1] | e]; [| exists e; reflexivity].
    rewrite bind_Ok.
    destruct (IH n Hl (i + 1) s1) as [e ->]. exists e. reflexivity.
Qed.

(** C5 (as stated): on the tile [flag] with the tokens [s] and [zzqq], the
    token [zzqq] is accepted by no handler, but the resolution of the tile
    raises [BadTilingVariant] for the token [s] before it reaches [zzqq]; it
    does not raise [UnknownVariant]. *)
Lemma earlier_error_precedes_unknown_variant :
  let tile := tile_of "flag" ["s"; "zzqq"] in
  Forall (fun h => Handler_match h "zzqq" = None)
    (handlers (setup sample_constants))
  /\ handle_tile (setup sample_constants) tile [[[[tile]]]] (0, 0, 0, 0)
       sample_cache ∅ None
     = Raise (BadTilingVariant (ArgName "flag") "s" (VInt (-1)))
  /\ handle_tile (setup sample_constants) tile [[[[tile]]]] (0, 0, 0, 0)
       sample_cache ∅ None
     <> Raise (UnknownVariant tile "zzqq").
Proof.
  intros tile. split; [repeat constructor |].
  assert (Hrun : handle_tile (setup sample_constants) tile [[[[tile]]]]
                   (0, 0, 0, 0) sample_cache ∅ None
                 = Raise (BadTilingVariant (ArgName "flag") "s" (VInt (-1))))
    by (vm_compute; reflexivity).
  split; [exact Hrun |]. rewrite Hrun. discriminate.
Qed.

(** C5 (amended): if a token of a tile of the grid is accepted by no
    handler, the resolution of that tile raises, and the resolution of the
    grid raises: no descriptor is returned for any tile.  The error of the
    tile is [UnknownVariant] with that tile and token when the default
    factory and the handlers of the tokens before it raised nothing;
    otherwise it is the earlier error. *)
Theorem unknown_variant_aborts
    (db_tiles : gset string -> value -> list TileData)
    (H : VariantHandlers) (grid : RawGrid) (flags : gmap string value)
    (extra_names : ExtraNames) (d y x z : nat)
    (step : list (list (list RawTile))) (row : list (list RawTile))
    (stack : list RawTile) (tile : RawTile)
    (pre post : list string) (variant : string) :
  grid !! d = Some step -> step !! y = Some row ->
  row !! x = Some stack -> stack !! z = Some tile ->
  variants tile = (pre ++ variant :: post)%list ->
  Forall (fun h => Handler_match h variant = None) (handlers H) ->
  (forall g index cache fl names,
     exists e, handle_tile H tile g index cache fl names = Raise e)
  /\ (forall g index cache fl names fields st,
        default_fields H (mkContext tile g index cache fl) = Ok fields ->
        apply_variants (handlers H) (mkContext tile g index cache fl) pre
          (fields, ∅) = Ok st ->
        handle_tile H tile g index cache fl names
        = Raise (UnknownVariant tile variant))
  /\ (exists e, handle_grid db_tiles H grid flags extra_names = Raise e)
  /\ (forall g index cache fl names e,
        default_fields H (mkContext tile g index cache fl) = Raise e ->
        handle_tile H tile g index cache fl names = Raise e)
  /\ (forall g index cache fl names fields e,
        default_fields H (mkContext tile g index cache fl) = Ok fields ->
        apply_variants (handlers H) (mkContext tile g index cache fl) pre
          (fields, ∅) = Raise e ->
        handle_tile H tile g index cache fl names = Raise e).
Proof.
  intros Hd Hy Hx Hz Hvs Hnone.
  assert (Htile : forall g index cache fl names,
            exists e, handle_tile H tile g index cache fl names = Raise e).
  { intros g index cache fl names.
    rewrite (handle_tile_unknown H tile pre post variant) by assumption.
    destruct (default_fields H _) as [fields | e]; [| eauto].
    destruct (apply_variants _ _ pre _) as [st | e]; eauto. }
  split; [exact Htile |]. split; [| split; [| split]].
  - intros g index cache fl names fields st Hdef Hpre.
    rewrite (handle_tile_unknown H tile pre post variant) by assumption.
    rewrite Hdef, Hpre. reflexivity.
  - unfold handle_grid.
    eapply (map_enumerate_raises _ grid d step Hd). intros i s.
    eapply (map_enumerate_raises _ step y row Hy). intros i0 s0.
    eapply (map_enumerate_raises _ row x stack Hx). intros i1 s1.
    eapply (map_enumerate_raises _ stack z tile Hz). intros i2 s2.
    apply Htile.
  - intros g index cache fl names e Hdef.
    rewrite (handle_tile_unknown H tile pre post variant) by assumption.
    rewrite Hdef. reflexivity.
  - intros g index cache fl names fields e Hdef Hpre.
    rewrite (handle_tile_unknown H tile pre post variant) by assumption.
    rewrite Hdef, Hpre. reflexivity.
Qed.

Lemma unknown_variant_aborts_witness :
  let tile := tile_of "baba" ["zzqq"] in
  let grid : RawGrid := [[[[tile_of "wall" []; tile]]]] in
  handle_tile (setup sample_constants) tile grid (0, 0, 0, 1) sample_cache
    ∅ None = Raise (UnknownVariant tile "zzqq")
  /\ exists e,
       handle_grid sample_db (setup sample_constants) grid ∅ None = Raise e.
Proof.
  intros tile grid.
  destruct (unknown_variant_aborts sample_db (setup sample_constants) grid
              ∅ None 0 0 0 1 [[[tile_of "wall" []; tile]]]
              [[tile_of "wall" []; tile]] [tile_of "wall" []; tile] tile
              [] [] "zzqq")
    as (_ & Hfirst & Hgrid & _);
    [reflexivity | reflexivity | reflexivity | reflexivity | reflexivity
    | repeat constructor |].
  split; [| exact Hgrid].
  eapply Hfirst; reflexivity.
Defined.

(** ** More on the variant codec *)

(** X1: joining what [split_variant] returns gives the variant back modulo
    32, for every integer; on 0..31 the two functions are inverse in this
    direction too. *)
Theorem join_split_variant (v : Z) :
  join_variant (split_variant (Some v)).1 (split_variant (Some v)).2
  = v mod 32.
Proof.
  unfold join_variant, split_variant.
  destruct (Z.eqb_spec (v mod 8) 7) as [E | E]; cbn [fst snd].
  - Z.div_mod_to_equations. lia.
  - Z.div_mod_to_equations. lia.
Qed.

(** X2: a variant in 0..31 splits into one of the four directions and an
    animation of -1 to 6. *)
Theorem split_variant_range (v : Z) :
  0 <= v <= 31 ->
  In (split_variant (Some v)).1 directions_conv
  /\ In (split_variant (Some v)).2 animations_conv.
Proof.
  intros Hv. unfold split_variant, directions_conv, animations_conv.
  destruct (Z.eqb_spec (v mod 8) 7) as [E | E]; cbn [fst snd In];
    Z.div_mod_to_equations; lia.
Qed.

Lemma split_variant_range_witness :
  0 <= 31 <= 31 /\ split_variant (Some 31) = (0, -1)
  /\ In (split_variant (Some 31)).1 directions_conv.
Proof.
  split; [lia |]. split; [reflexivity |].
  apply (split_variant_range 31). lia.
Defined.

(** ** Direction, animation and auto-tiling tokens *)

Lemma split_of_join (dir anim : Z) :
  In dir directions_conv -> In anim animations_conv ->
  split_variant (Some (join_variant dir anim)) = (dir, anim).
Proof.
  unfold directions_conv, animations_conv. cbn [In].
  intros Hd Ha.
  assert (Hj : join_variant dir anim = (dir + anim) mod 32) by reflexivity.
  unfold split_variant. rewrite Hj.
  destruct (Z.eqb_spec (((dir + anim) mod 32) mod 8) 7) as [E | E];
    f_equal; Z.div_mod_to_equations; lia.
Qed.

Lemma field_int_update (fields partial : TileFields) (k : string) (z : Z) :
  partial !! k = Some (VInt z) ->
  field_int (update fields partial) k = Some z.
Proof.
  intros H. unfold field_int. rewrite update_lookup, H. reflexivity.
Qed.

(** X3: on a tile whose tiling category has directions and animation
    frames, a direction token and an animation token can be applied in
    either order: each keeps what the other set, and both orders end with
    the same fields, the variant number being the join of the two. *)
Theorem direction_animation_commute (K : Constants) (base : ContextBase)
    (td : TileData) (fields : TileFields) (extras : gmap string value)
    (token_d token_a : string) (dir anim : Z) :
  tile_data base = Some td ->
  contains (DIRECTION_TILINGS K) (tiling td) = true ->
  contains (ANIMATION_TILINGS K) (tiling td) = true ->
  dict_get (DIRECTION_VARIANTS K) token_d = Some dir ->
  dict_get (ANIMATION_VARIANTS K) token_a = Some anim ->
  In dir directions_conv -> In anim animations_conv ->
  In (split_variant (field_int fields "variant_number")).1 directions_conv ->
  In (split_variant (field_int fields "variant_number")).2 animations_conv ->
  exists d_first a_second a_first d_second,
    directions K (mkHandlerContext base fields token_d [] extras)
      = Ok (d_first, extras)
    /\ animations K
         (mkHandlerContext base (update fields d_first) token_a [] extras)
       = Ok (a_second, extras)
    /\ animations K (mkHandlerContext base fields token_a [] extras)
       = Ok (a_first, extras)
    /\ directions K
         (mkHandlerContext base (update fields a_first) token_d [] extras)
       = Ok (d_second, extras)
    /\ update (update fields d_first) a_second
       = update (update fields a_first) d_second
    /\ update (update fields d_first) a_second !! "variant_number"
       = Some (VInt (join_variant dir anim)).
Proof.
  intros Htd Hdt Hat Hd Ha Hdir Hanim Hd0 Ha0.
  destruct (split_variant (field_int fields "variant_number"))
    as [dir0 anim0] eqn:Hsplit0.
  cbn [fst snd] in Hd0, Ha0.
  set (d_first := (list_to_map
         [("variant_number", VInt (join_variant dir anim0));
          ("custom_direction", VInt dir)] : TileFields)).
  set (a_first := ({[ "variant_number" := VInt (join_variant dir0 anim) ]}
                   : TileFields)).
  set (a_second := ({[ "variant_number" := VInt (join_variant dir anim) ]}
                    : TileFields)).
  set (d_second := (list_to_map
         [("variant_number", VInt (join_variant dir anim));
          ("custom_direction", VInt dir)] : TileFields)).
  exists d_first, a_second, a_first, d_second.
  assert (E1 : directions K (mkHandlerContext base fields token_d [] extras)
               = Ok (d_first, extras)).
  { unfold directions, dict_getitem, hc_tile_data. cbn [hc_variant hc_fields
      hc_base hc_extras]. rewrite Hd, bind_Ok, Hsplit0, Htd, Hdt.
    reflexivity. }
  assert (E2 : animations K
                 (mkHandlerContext base (update fields d_first) token_a []
                    extras) = Ok (a_second, extras)).
  { unfold animations, dict_getitem, hc_tile_data. cbn [hc_variant hc_fields
      hc_base hc_extras]. rewrite Ha, bind_Ok.
    rewrite (field_int_update fields d_first "variant_number"
               (join_variant dir anim0)) by reflexivity.
    rewrite (split_of_join dir anim0 Hdir Ha0), Htd, Hat. reflexivity. }
  assert (E3 : animations K (mkHandlerContext base fields token_a [] extras)
               = Ok (a_first, extras)).
  { unfold animations, dict_getitem, hc_tile_data. cbn [hc_variant hc_fields
      hc_base hc_extras]. rewrite Ha, bind_Ok, Hsplit0, Htd, Hat.
    reflexivity. }
  assert (E4 : directions K
                 (mkHandlerContext base (update fields a_first) token_d []
                    extras) = Ok (d_second, extras)).
  { unfold directions, dict_getitem, hc_tile_data. cbn [hc_variant hc_fields
      hc_base hc_extras]. rewrite Hd, bind_Ok.
    rewrite (field_int_update fields a_first "variant_number"
               (join_variant dir0 anim)) by reflexivity.
    rewrite (split_of_join dir0 anim Hd0 Hanim), Htd, Hdt. reflexivity. }
  repeat (split; [assumption |]).
  assert (Hvn : update (update fields d_first) a_second !! "variant_number"
                = Some (VInt (join_variant dir anim))).
  { rewrite update_lookup. reflexivity. }
  split; [| exact Hvn].
  apply map_eq. intros k. rewrite !update_lookup.
  destruct (decide (k = "variant_number")) as [-> | Hk1]; [reflexivity |].
  unfold a_second, a_first, d_first, d_second.
  rewrite !lookup_singleton_ne by congruence.
  cbn [list_to_map foldr uncurry].
  rewrite !(lookup_insert_ne _ "variant_number" k) by congruence.
  reflexivity.
Qed.

Lemma direction_animation_commute_witness :
  let base := mkContext (tile_of "baba" []) [] (0, 0, 0, 0) sample_cache ∅ in
  let fields : TileFields := {[ "variant_number" := VInt 0 ]} in
  exists d_first a_second,
    directions sample_constants (mkHandlerContext base fields "u" [] ∅)
      = Ok (d_first, ∅)
    /\ update (update fields d_first) a_second !! "variant_number"
       = Some (VInt 10).
Proof.
  intros base fields.
  destruct (direction_animation_commute sample_constants base baba_data
              fields ∅ "u" "a2" 8 2)
    as (d_first & a_second & a_first & d_second & E1 & _ & _ & _ & _ & Hvn);
    [reflexivity | reflexivity | reflexivity | reflexivity | reflexivity
    | cbn; lia | cbn; lia | vm_compute; lia | vm_compute; lia |].
  exists d_first, a_second. split; [exact E1 | exact Hvn].
Defined.

(** X4: on an auto-tiling tile, the first auto token replaces the variant
    number computed from the neighbours and the second one is combined with
    it by bitwise or; the result does not depend on the order of the two
    tokens nor on the variant number before them. *)
Theorem auto_tokens_combine (K : Constants) (base : ContextBase)
    (td : TileData) (fields : TileFields) (extras : gmap string value)
    (token1 token2 : string) (bits1 bits2 : Z) :
  tile_data base = Some td ->
  contains (AUTO_TILINGS K) (tiling td) = true ->
  flag_set extras "auto_override" = false ->
  dict_get (AUTO_VARIANTS K) token1 = Some bits1 ->
  dict_get (AUTO_VARIANTS K) token2 = Some bits2 ->
  let after (first second : string) :=
    '(r1, extras1) ←
      auto K (mkHandlerContext base fields first [] extras);
    '(r2, extras2) ←
      auto K (mkHandlerContext base (update fields r1) second [] extras1);
    Ok (update (update fields r1) r2 !! "variant_number") in
  after token1 token2 = Ok (Some (VInt (Z.lor bits1 bits2)))
  /\ after token2 token1 = after token1 token2.
Proof.
  intros Htd Hauto Hextras H1 H2 after.
  assert (Hafter : forall first second b1 b2,
            dict_get (AUTO_VARIANTS K) first = Some b1 ->
            dict_get (AUTO_VARIANTS K) second = Some b2 ->
            after first second = Ok (Some (VInt (Z.lor b1 b2)))).
  { intros first second b1 b2 Hf Hs. unfold after, auto, dict_getitem,
      hc_tile_data. cbn [hc_variant hc_fields hc_base hc_extras].
    rewrite Htd, Hauto, Hextras, Hf, bind_Ok. cbn [mbind result_bind].
    assert (Hset : flag_set (<["auto_override" := VBool true]> extras)
                     "auto_override" = true).
    { unfold flag_set. rewrite lookup_insert_eq. reflexivity. }
    rewrite Hset, Hs.
    rewrite (field_int_update fields _ "variant_number" b1)
      by apply lookup_singleton_eq.
    cbn [default mbind result_bind]. rewrite update_lookup.
    rewrite lookup_singleton_eq. reflexivity. }
  split; [apply Hafter; assumption |].
  rewrite (Hafter token1 token2 bits1 bits2) by assumption.
  rewrite (Hafter token2 token1 bits2 bits1) by assumption.
  rewrite Z.lor_comm. reflexivity.
Qed.

Lemma auto_tokens_combine_witness :
  let base := mkContext (tile_of "wall" []) [] (0, 0, 0, 0) sample_cache ∅ in
  let fields : TileFields := {[ "variant_number" := VInt 15 ]} in
  ('(r1, extras1) ←
     auto sample_constants (mkHandlerContext base fields "tr" [] ∅);
   '(r2, extras2) ←
     auto sample_constants
       (mkHandlerContext base (update fields r1) "td" [] extras1);
   Ok (update (update fields r1) r2 !! "variant_number"))
  = Ok (Some (VInt 9)).
Proof.
  intros base fields.
  destruct (auto_tokens_combine sample_constants base wall_data fields ∅
              "tr" "td" 1 8) as [H _];
    [reflexivity | reflexivity | reflexivity | reflexivity | reflexivity |].
  exact H.
Defined.

(** ** Failures of the adjacency query and of the default factory *)

Lemma py_getitem_error {A : Type} (l : list A) (i : Z) (e : error) :
  py_getitem l i = Raise e -> e = IndexError.
Proof.
  unfold py_getitem.
  destruct (_ <? 0); [intros [= <-]; reflexivity |].
  destruct (l !! _); [discriminate | intros [= <-]; reflexivity].
Qed.

Lemma is_adjacent_error (ctx : ContextBase) (c : Z * Z * Z * Z) (e : error) :
  is_adjacent ctx c = Raise e -> e = IndexError.
Proof.
  destruct c as [[[d x] y] l]. unfold is_adjacent.
  destruct (py_getitem (ctx_grid ctx) d) as [step |] eqn:E1;
    [rewrite bind_Ok | intros [= <-]; exact (py_getitem_error _ _ _ E1)].
  destruct (x <? 0); [discriminate |].
  destruct (y <? 0); [discriminate |].
  destruct (py_getitem step l) as [layer |] eqn:E2;
    [rewrite bind_Ok | intros [= <-]; exact (py_getitem_error _ _ _ E2)].
  destruct (y >=? len layer); [discriminate |].
  destruct (py_getitem layer 0) as [row0 |] eqn:E3;
    [rewrite bind_Ok | intros [= <-]; exact (py_getitem_error _ _ _ E3)].
  destruct (x >=? len row0); [discriminate |].
  destruct (py_getitem layer y) as [row |] eqn:E4;
    [rewrite bind_Ok | intros [= <-]; exact (py_getitem_error _ _ _ E4)].
  destruct (py_getitem row x) as [cell |] eqn:E5;
    [discriminate | intros [= <-]; exact (py_getitem_error _ _ _ E5)].
Qed.

Lemma and_then_error (a b : bool) (r : result bool) (e : error) :
  and_then a b r = Raise e -> r = Raise e.
Proof. destruct a, b; simpl; congruence. Qed.

Lemma auto_tile_error (K : Constants) (ctx : ContextBase) (e : error) :
  auto_tile K ctx = Raise e -> e = IndexError \/ e = KeyError.
Proof.
  unfold auto_tile. destruct (ctx_index ctx) as [[[d y] t] x].
  repeat match goal with
  | |- context [is_adjacent ctx ?c ≫= _] =>
      let E := fresh "E" in
      destruct (is_adjacent ctx c) as [? |] eqn:E;
        [rewrite bind_Ok
        | intros [= <-]; left; exact (is_adjacent_error _ _ _ E)]
  end.
  unfold dict_getitem.
  destruct (dict_get _ _); [rewrite bind_Ok | intros [= <-]; right; reflexivity].
  repeat match goal with
  | |- context [and_then ?a ?b ?r ≫= _] =>
      let E := fresh "E" in
      destruct (and_then a b r) as [? |] eqn:E;
        [rewrite bind_Ok
        | intros [= <-]; left;
          exact (is_adjacent_error _ _ _ (and_then_error _ _ _ _ E))]
  end.
  discriminate.
Qed.

(** X5: the default factory raises [TileNotFound] exactly when the tile is
    not the empty marker, has no static record and is not a text tile; any
    other failure is an [IndexError] or a [KeyError], and comes from the
    auto-tiling of a tile whose record has an auto-tiling category. *)
Theorem default_factory_errors (K : Constants) (ctx : ContextBase) :
  (forall t,
     default_factory K ctx = Raise (TileNotFound t) <->
     t = ctx_tile ctx /\ name (ctx_tile ctx) <> "-"
     /\ tile_data ctx = None /\ is_text (ctx_tile ctx) = false)
  /\ (forall e,
        default_factory K ctx = Raise e ->
        e = TileNotFound (ctx_tile ctx)
        \/ ((e = IndexError \/ e = KeyError)
            /\ exists td, tile_data ctx = Some td
                          /\ contains (AUTO_TILINGS K) (tiling td) = true)).
Proof.
  assert (Hall : forall e,
            default_factory K ctx = Raise e ->
            (e = TileNotFound (ctx_tile ctx)
             /\ name (ctx_tile ctx) <> "-" /\ tile_data ctx = None
             /\ is_text (ctx_tile ctx) = false)
            \/ ((e = IndexError \/ e = KeyError)
                /\ exists td, tile_data ctx = Some td
                     /\ contains (AUTO_TILINGS K) (tiling td) = true)).
  { intros e. unfold default_factory.
    destruct (String.eqb_spec (name (ctx_tile ctx)) "-") as [| Hname];
      [discriminate |].
    destruct (tile_data ctx) as [td |] eqn:Htd.
    - destruct (contains (AUTO_TILINGS K) (tiling td)) eqn:Hauto;
        [| discriminate].
      destruct (auto_tile K ctx) as [[variant fallback] |] eqn:Hat;
        [discriminate |].
      intros [= <-]. right. split; [exact (auto_tile_error _ _ _ Hat) |].
      exists td. split; [reflexivity | exact Hauto].
    - destruct (is_text (ctx_tile ctx)) eqn:Htext; [discriminate |].
      intros [= <-]. left. repeat split; assumption. }
  split.
  - intros t. split.
    + intros Hr. destruct (Hall _ Hr) as [(Ht & Hrest) | ([H | H] & _)];
        [| discriminate H | discriminate H].
      injection Ht as ->. split; [reflexivity | exact Hrest].
    + intros (-> & Hname & Hnone & Htext). unfold default_factory.
      destruct (String.eqb_spec (name (ctx_tile ctx)) "-"); [contradiction |].
      rewrite Hnone, Htext. reflexivity.
  - intros e Hr. destruct (Hall _ Hr) as [(He & _) | H];
      [left; exact He | right; exact H].
Qed.

(** X6: for a tile whose record has no auto-tiling category, and for a
    tile without record, the default factory reads neither the grid nor the
    index: it gives the same result on any other grid and position. *)
Theorem default_factory_ignores_grid (K : Constants) (tile : RawTile)
    (grid grid' : RawGrid) (index index' : GridIndex)
    (cache : gmap string TileData) (flags : gmap string value) :
  match cache !! name tile with
  | Some td => contains (AUTO_TILINGS K) (tiling td) = false
  | None => True
  end ->
  default_factory K (mkContext tile grid index cache flags)
  = default_factory K (mkContext tile grid' index' cache flags).
Proof.
  intros H. unfold default_factory, tile_data.
  cbn [ctx_tile ctx_tile_data_cache ctx_flags].
  destruct (String.eqb (name tile) "-"); [reflexivity |].
  destruct (cache !! name tile) as [td |]; [| reflexivity].
  rewrite H. reflexivity.
Qed.

Lemma default_factory_ignores_grid_witness :
  default_factory sample_constants
    (mkContext (tile_of "baba" []) [] (5, 5, 5, 5) sample_cache ∅)
  = default_factory sample_constants
      (mkContext (tile_of "baba" []) [[[[tile_of "baba" []]]]] (0, 0, 0, 0)
         sample_cache ∅).
Proof.
  apply (default_factory_ignores_grid sample_constants (tile_of "baba" [])).
  reflexivity.
Defined.

(** X7: when the tiling table has no entry for the four cardinal joins of
    an auto-tiling tile, the default factory raises [KeyError]: only the
    lookup with the diagonals falls back. *)
Theorem default_factory_missing_cardinal_key (K : Constants)
    (ctx : ContextBase) (td : TileData) (d y t x : Z) (r u l dn : bool) :
  name (ctx_tile ctx) <> "-" ->
  tile_data ctx = Some td ->
  contains (AUTO_TILINGS K) (tiling td) = true ->
  ctx_index ctx = (d, y, t, x) ->
  is_adjacent ctx (d, x + 1, y, t) = Ok r ->
  is_adjacent ctx (d, x, y - 1, t) = Ok u ->
  is_adjacent ctx (d, x - 1, y, t) = Ok l ->
  is_adjacent ctx (d, x, y + 1, t) = Ok dn ->
  dict_get (TILING_VARIANTS K) (r, u, l, dn, false, false, false, false)
    = None ->
  default_factory K ctx = Raise KeyError.
Proof.
  intros Hname Htd Hauto Hidx Hr Hu Hl Hdn Hnone.
  unfold default_factory.
  destruct (String.eqb_spec (name (ctx_tile ctx)) "-"); [contradiction |].
  rewrite Htd, Hauto. unfold auto_tile.
  rewrite Hidx, Hr, bind_Ok, Hu, bind_Ok, Hl, bind_Ok, Hdn, bind_Ok.
  unfold dict_getitem. rewrite Hnone. reflexivity.
Qed.

Lemma default_factory_missing_cardinal_key_witness :
  let K := mkConstants [1] [] [] [] [] [] [] [] []
             [((true, true, true, true, true, true, true, true), 46)] in
  let wall := tile_of "wall" [] in
  default_factory K (mkContext wall [[[[wall]]]] (0, 0, 0, 0) sample_cache ∅)
  = Raise KeyError.
Proof.
  intros K wall.
  apply (default_factory_missing_cardinal_key K _ wall_data 0 0 0 0
           false false false false);
    solve [reflexivity | discriminate].
Defined.

(** X8: the width of a layer is read from its first row only.  On a layer
    whose row [y] is shorter than the first row, a coordinate inside the
    first row's width and past the end of row [y] raises [IndexError]
    instead of yielding the border flag. *)
Theorem is_adjacent_ragged_row (ctx : ContextBase) (d x y l : Z)
    (step : list (list (list RawTile))) (layer : list (list RawTile))
    (row0 row : list RawTile) :
  py_getitem (ctx_grid ctx) d = Ok step ->
  py_getitem step l = Ok layer ->
  layer !! 0%nat = Some row0 ->
  0 <= y -> layer !! Z.to_nat y = Some row ->
  0 <= x -> len row <= x < len row0 ->
  is_adjacent ctx (d, x, y, l) = Raise IndexError.
Proof.
  intros Hstep Hlayer H0 Hy Hrow Hx Hxr.
  assert (Hylen : y < len layer).
  { apply lookup_lt_Some in Hrow. unfold len. lia. }
  unfold is_adjacent. rewrite Hstep, bind_Ok.
  destruct (x <? 0) eqn:Ex; [apply Z.ltb_lt in Ex; lia |].
  destruct (y <? 0) eqn:Ey; [apply Z.ltb_lt in Ey; lia |].
  rewrite Hlayer, bind_Ok.
  destruct (y >=? len layer) eqn:Eyl;
    [rewrite Z.geb_leb in Eyl; apply Z.leb_le in Eyl; lia |].
  rewrite (py_getitem_lookup layer 0 row0) by (lia || exact H0).
  rewrite bind_Ok.
  destruct (x >=? len row0) eqn:Exl;
    [rewrite Z.geb_leb in Exl; apply Z.leb_le in Exl; lia |].
  rewrite (py_getitem_lookup layer y row) by (lia || exact Hrow).
  rewrite bind_Ok. unfold py_getitem.
  destruct (x <? 0) eqn:Ex'; [discriminate Ex |].
  rewrite Ex'.
  rewrite (lookup_ge_None_2 row (Z.to_nat x)) by (unfold len in Hxr; lia).
  reflexivity.
Qed.

Lemma is_adjacent_ragged_row_witness :
  let wall := tile_of "wall" [] in
  let ctx := mkContext wall [[[[wall; wall]; [wall]]]] (0, 0, 0, 0)
               sample_cache ∅ in
  is_adjacent ctx (0, 1, 1, 0) = Raise IndexError.
Proof.
  intros wall ctx.
  apply (is_adjacent_ragged_row ctx 0 1 1 0 [[[wall; wall]; [wall]]]
           [[wall; wall]; [wall]] [wall; wall] [wall]);
    solve [reflexivity | lia | unfold len; cbn; lia].
Defined.

(** ** Whole-grid resolution *)

Lemma map_enumerate_Forall2 {A B S : Type} (P : A -> B -> Prop)
    (f : Z -> A -> S -> result (B * S)) :
  (forall i a s b s', f i a s = Ok (b, s') -> P a b) ->
  forall l i s bs s',
    map_enumerate f i l s = Ok (bs, s') -> Forall2 P l bs.
Proof.
  intros Hf. induction l as [| a l IH]; intros i s bs s' Hrun.
  - injection Hrun as <- _. constructor.
  - cbn [map_enumerate] in Hrun.
    destruct (f i a s) as [[b s1] |] eqn:Ef; [| discriminate Hrun].
    rewrite bind_Ok in Hrun.
    destruct (map_enumerate f (i + 1) l s1) as [[bs' s2] |] eqn:El;
      [| discriminate Hrun].
    rewrite bind_Ok in Hrun. injection Hrun as <- _.
    constructor; [exact (Hf _ _ _ _ _ Ef) | exact (IH _ _ _ _ El)].
Qed.

Lemma handle_grid_Forall2 (P : RawTile -> FullTile -> Prop)
    (db_tiles : gset string -> value -> list TileData)
    (H : VariantHandlers) (grid : RawGrid) (flags : gmap string value)
    (extra_names names' : ExtraNames)
    (out : list (list (list (list FullTile)))) :
  (forall tile g index cache fl s full s',
     handle_tile H tile g index cache fl s = Ok (full, s') -> P tile full) ->
  handle_grid db_tiles H grid flags extra_names = Ok (out, names') ->
  Forall2 (Forall2 (Forall2 (Forall2 P))) grid out.
Proof.
  intros HP. unfold handle_grid.
  apply map_enumerate_Forall2. intros d step s ostep s'.
  apply map_enumerate_Forall2. intros y row s0 orow s0'.
  apply map_enumerate_Forall2. intros x stack s1 ostack s1'.
  apply map_enumerate_Forall2. intros z tile s2 full s2'.
  apply HP.
Qed.

(** X9: when the resolution of a grid succeeds, the result has the shape
    of the grid: as many steps, and position by position as many layers,
    rows and tiles; this holds for every registry. *)
Theorem handle_grid_shape
    (db_tiles : gset string -> value -> list TileData)
    (H : VariantHandlers) (grid : RawGrid) (flags : gmap string value)
    (extra_names names' : ExtraNames)
    (out : list (list (list (list FullTile)))) :
  handle_grid db_tiles H grid flags extra_names = Ok (out, names') ->
  Forall2 (Forall2 (Forall2 (fun stack ostack =>
    length stack = length ostack))) grid out
  /\ length grid = length out.
Proof.
  intros Hrun.
  pose proof (handle_grid_Forall2 (fun _ _ => True) db_tiles H grid flags
                extra_names names' out (fun _ _ _ _ _ _ _ _ _ => I) Hrun)
    as Hshape.
  split; [| exact (Forall2_length _ _ _ Hshape)].
  eapply Forall2_impl; [exact Hshape |]. intros step ostep Hstep.
  eapply Forall2_impl; [exact Hstep |]. intros row orow Hrow.
  eapply Forall2_impl; [exact Hrow |]. intros stack ostack Hstack.
  exact (Forall2_length _ _ _ Hstack).
Qed.

Lemma handle_grid_shape_witness :
  let grid : RawGrid :=
    [[[[tile_of "wall" []; tile_of "baba" ["r"]]; [tile_of "flag" []]]]] in
  exists out names,
    handle_grid sample_db (setup sample_constants) grid ∅ None
    = Ok (out, names)
    /\ length grid = length out.
Proof.
  intros grid.
  assert (Hrun : exists out names,
            handle_grid sample_db (setup sample_constants) grid ∅ None
            = Ok (out, names)) by (eexists _, _; vm_compute; reflexivity).
  destruct Hrun as (out & names & Hrun).
  exists out, names. split; [exact Hrun |].
  exact (proj2 (handle_grid_shape _ _ _ _ _ _ _ Hrun)).
Defined.

(** X10: with the finalizer of [setup], every descriptor of a resolved
    grid carries the identifier of the tile at the same position. *)
Theorem handle_grid_names
    (db_tiles : gset string -> value -> list TileData)
    (H : VariantHandlers) (grid : RawGrid) (flags : gmap string value)
    (extra_names names' : ExtraNames)
    (out : list (list (list (list FullTile)))) :
  finalizer H = Some finalize ->
  handle_grid db_tiles H grid flags extra_names = Ok (out, names') ->
  Forall2 (Forall2 (Forall2 (Forall2 (fun tile full =>
    ft_name full = name tile)))) grid out.
Proof.
  intros Hfin. apply handle_grid_Forall2.
  intros tile g index cache fl s full s'. unfold handle_tile.
  destruct (default_fields H _) as [fields |]; [| discriminate].
  rewrite bind_Ok.
  destruct (apply_variants _ _ _ _) as [[fields' extras] |]; [| discriminate].
  rewrite bind_Ok, Hfin. unfold finalize, finalize_style.
  intros [= <- _].
  repeat match goal with |- context [if ?b then _ else _] => destruct b end;
    reflexivity.
Qed.

Lemma handle_grid_names_witness :
  let grid : RawGrid := [[[[tile_of "baba" ["r"]]]]] in
  exists full names,
    handle_grid sample_db (setup sample_constants) grid ∅ None
    = Ok ([[[[full]]]], names)
    /\ ft_name full = "baba".
Proof.
  intros grid.
  assert (Hrun : exists full names,
            handle_grid sample_db (setup sample_constants) grid ∅ None
            = Ok ([[[[full]]]], names))
    by (eexists _, _; vm_compute; reflexivity).
  destruct Hrun as (full & names & Hrun).
  exists full, names. split; [exact Hrun |].
  pose proof (handle_grid_names sample_db (setup sample_constants) grid ∅
                None names [[[[full]]]] eq_refl Hrun) as Hn.
  unfold grid in Hn.
  repeat match goal with
  | Hf : Forall2 _ (_ :: _) (_ :: _) |- _ =>
      apply Forall2_cons_1 in Hf as [Hf _]
  end.
  exact Hn.
Defined.

Lemma build_cache_snoc (records : list TileData) (data : TileData) :
  build_cache (records ++ [data])
  = <[td_name data := data]> (build_cache records).
Proof. unfold build_cache. rewrite fold_left_app. reflexivity. Qed.

Lemma fold_cache_other (records : list TileData)
    (cache : gmap string TileData) (n : string) :
  n ∉ (td_name <$> records) ->
  fold_left (fun cache data => <[td_name data := data]> cache) records cache
    !! n = cache !! n.
Proof.
  revert cache. induction records as [| data records IH]; intros cache Hn;
    [reflexivity |].
  cbn [fold_left]. rewrite fmap_cons, not_elem_of_cons in Hn.
  destruct Hn as [Hne Hn]. rewrite IH by exact Hn.
  apply lookup_insert_ne. congruence.
Qed.

(** X11: the cache built from the fetched records maps a name to a record
    of that name taken from the list; every fetched record's name is in the
    cache; and of several records with one name the last fetched is the one
    kept. *)
Theorem build_cache_spec (records : list TileData) :
  (forall n data,
     build_cache records !! n = Some data ->
     td_name data = n /\ data ∈ records)
  /\ (forall data,
        data ∈ records -> is_Some (build_cache records !! td_name data))
  /\ (forall before data after,
        records = (before ++ data :: after)%list ->
        td_name data ∉ (td_name <$> after) ->
        build_cache records !! td_name data = Some data).
Proof.
  split; [| split].
  - induction records as [| last records IH] using rev_ind; intros n data.
    + unfold build_cache. cbn. rewrite lookup_empty. discriminate.
    + rewrite build_cache_snoc.
      destruct (decide (td_name last = n)) as [<- | Hne].
      * rewrite lookup_insert_eq. intros [= <-].
        split; [reflexivity |]. apply elem_of_app. right. constructor.
      * rewrite lookup_insert_ne by exact Hne. intros Hl.
        destruct (IH _ _ Hl) as [Hn Hin]. split; [exact Hn |].
        apply elem_of_app. left. exact Hin.
  - induction records as [| last records IH] using rev_ind; intros data Hin.
    + inversion Hin.
    + rewrite build_cache_snoc.
      destruct (decide (td_name last = td_name data)) as [-> | Hne].
      * rewrite lookup_insert_eq. eauto.
      * rewrite lookup_insert_ne by exact Hne. apply IH.
        apply elem_of_app in Hin as [Hin | Hin]; [exact Hin |].
        apply list_elem_of_singleton in Hin. congruence.
  - intros before data after -> Hafter. unfold build_cache.
    rewrite fold_left_app. cbn [fold_left].
    rewrite fold_cache_other by exact Hafter.
    apply lookup_insert_eq.
Qed.

Lemma build_cache_spec_witness :
  let newer := mkTileData "wall" "modded" "wall2" 0 (3, 3) (3, 1) 0 in
  build_cache [wall_data; baba_data; newer] !! "wall" = Some newer.
Proof.
  intros newer.
  destruct (build_cache_spec [wall_data; baba_data; newer]) as (_ & _ & Hlast).
  apply (Hlast [wall_data; baba_data] newer []); [reflexivity |].
  cbn. apply not_elem_of_nil.
Defined.

(** ** More on the finalizer *)



Lemma custom_style_set (t : FullTile) (style : string) :
  ft_custom_style (set_custom_style t style) = Some (VStr style).
Proof.
  unfold ft_custom_style, set_custom_style. cbn [ft_fields].
  rewrite lookup_insert_eq. reflexivity.
Qed.

Lemma finalize_style_keep (t : FullTile) (flags : gmap string value) :
  ft_custom t = false \/ ft_custom_style t <> None ->
  finalize_style t flags = t.
Proof.
  intros [Hc | Hs]; unfold finalize_style.
  - rewrite Hc. reflexivity.
  - rewrite (bool_decide_eq_false_2 _ Hs), andb_false_r. reflexivity.
Qed.

(** X13: the finalizer never replaces a style that is already set and
    never gives one to a tile that is not custom; it keeps the tile's
    identifier and every field but [custom_style]; and running it a second
    time, even with other flags, changes nothing. *)
Theorem finalize_style_stable (tile : FullTile) (flags flags' : gmap string value) :
  (ft_custom tile = false \/ ft_custom_style tile <> None ->
   finalize_style tile flags = tile)
  /\ ft_name (finalize_style tile flags) = ft_name tile
  /\ (forall k, k <> "custom_style" ->
        ft_fields (finalize_style tile flags) !! k = ft_fields tile !! k)
  /\ finalize_style (finalize_style tile flags) flags'
     = finalize_style tile flags.
Proof.
  pose proof finalize_style_keep as Hkeep.
  split; [apply Hkeep |].
  split; [| split].
  - unfold finalize_style.
    repeat match goal with |- context [if ?b then _ else _] => destruct b end;
      reflexivity.
  - intros k Hk. unfold finalize_style.
    repeat match goal with |- context [if ?b then _ else _] => destruct b end;
      try reflexivity; unfold set_custom_style; cbn [ft_fields];
      apply lookup_insert_ne; congruence.
  - destruct (ft_custom tile && bool_decide (ft_custom_style tile = None))
      eqn:E.
    + assert (Hs : exists s, finalize_style tile flags
                             = set_custom_style tile s).
      { unfold finalize_style. rewrite E.
        destruct (_ && flag_set flags "default_to_letters"); eauto. }
      destruct Hs as [s ->]. apply Hkeep. right.
      rewrite custom_style_set. discriminate.
    + assert (Hs : finalize_style tile flags = tile)
        by (unfold finalize_style; rewrite E; reflexivity).
      rewrite Hs. apply Hkeep. apply andb_false_iff in E as [E | E];
        [left; exact E | right].
      apply bool_decide_eq_false_1 in E. exact E.
Qed.

(** ** Registration *)

Lemma len_nonneg {A : Type} (l : list A) : 0 <= len l.
Proof. unfold len. lia. Qed.

(** X14: registering a handler adds exactly this one handler and keeps the
    others in their order, leaving the default factory and the finalizer
    alone.  An [order] at or past the length appends, as no [order] does;
    an [order] at or below minus the length puts the handler first. *)
Theorem register_position (H : VariantHandlers) (order : option Z)
    (h : Handler) :
  (exists before after,
     handlers H = (before ++ after)%list
     /\ handlers (register H order h) = (before ++ h :: after)%list)
  /\ length (handlers (register H order h)) = S (length (handlers H))
  /\ default_fields (register H order h) = default_fields H
  /\ finalizer (register H order h) = finalizer H
  /\ (forall i, len (handlers H) <= i ->
        handlers (register H (Some i) h) = handlers (register H None h))
  /\ (forall i, i <= - len (handlers H) ->
        handlers (register H (Some i) h) = h :: handlers H).
Proof.
  pose proof (len_nonneg (handlers H)) as Hlen.
  assert (Hsplit : exists before after,
            handlers H = (before ++ after)%list
            /\ handlers (register H order h) = (before ++ h :: after)%list).
  { destruct order as [i |]; cbn [register handlers].
    - unfold py_insert. eexists _, _. split; [| reflexivity].
      symmetry. apply take_drop.
    - exists (handlers H), []. split; [symmetry; apply app_nil_r | reflexivity]. }
  split; [exact Hsplit |].
  split; [| split; [reflexivity | split; [reflexivity | split]]].
  - destruct Hsplit as (before & after & -> & ->).
    rewrite !length_app. cbn [length]. lia.
  - intros i Hi. cbn [register handlers]. unfold py_insert.
    destruct (i <? 0) eqn:E; [apply Z.ltb_lt in E; lia |].
    rewrite Z.min_r by exact Hi. unfold len. rewrite Nat2Z.id.
    rewrite firstn_all, skipn_all. reflexivity.
  - intros i Hi. cbn [register handlers]. unfold py_insert.
    destruct (i <? 0) eqn:E.
    + rewrite Z.max_l by lia. reflexivity.
    + apply Z.ltb_ge in E.
      assert (i = 0) as -> by lia.
      rewrite Z.min_l by lia. reflexivity.
Qed.

(** ** Colour and filter handlers *)

Lemma hex_digit_range (c : ascii) (d : Z) :
  hex_digit c = Some d -> 0 <= d <= 15.
Proof.
  unfold hex_digit. cbv zeta.
  repeat match goal with
  | |- context [if ?b then _ else _] => destruct b eqn:?
  end; intros [= <-];
    repeat match goal with
    | Hb : _ && _ = true |- _ => apply andb_true_iff in Hb as [? ?]
    | Hb : (_ <=? _) = true |- _ => apply Z.leb_le in Hb
    end; lia.
Qed.

Lemma hex_value_range (s : string) (acc : Z) :
  all_hex s = true ->
  exists v, hex_value s acc = Some (acc * 16 ^ Z.of_nat (String.length s) + v)
            /\ 0 <= v < 16 ^ Z.of_nat (String.length s).
Proof.
  revert acc. induction s as [| c s IH]; intros acc Hs.
  - exists 0. cbn [hex_value String.length].
    change (Z.of_nat 0) with 0. rewrite Z.pow_0_r.
    split; [f_equal; lia | lia].
  - cbn [all_hex] in Hs. cbn [hex_value String.length].
    destruct (hex_digit c) as [d |] eqn:Hd; [| discriminate Hs].
    destruct (IH (16 * acc + d) Hs) as (v & -> & Hv).
    pose proof (hex_digit_range c d Hd) as Hrange.
    rewrite Nat2Z.inj_succ, Z.pow_succ_r by lia.
    set (p := 16 ^ Z.of_nat (String.length s)) in *.
    exists (d * p + v). split; [f_equal; lia | nia].
Qed.

Lemma rgb_components (color : Z) :
  0 <= color < 16777216 ->
  Z.shiftr color 16 = color / 65536
  /\ Z.shiftr (Z.land color 65280) 8 = (color / 256) mod 256
  /\ Z.land color 255 = color mod 256.
Proof.
  intros Hc.
  split; [apply (Z.shiftr_div_pow2 color 16); lia |].
  split.
  - change 65280 with (Z.shiftl 255 8).
    rewrite Z.shiftr_land, Z.shiftr_shiftl_l by lia.
    change (Z.shiftl 255 (8 - 8)) with (Z.ones 8).
    rewrite Z.land_ones by lia.
    rewrite (Z.shiftr_div_pow2 color 8) by lia. reflexivity.
  - change 255 with (Z.ones 8). rewrite Z.land_ones by lia. reflexivity.
Qed.

(** X15: for every token that the six-digit pattern accepts, the handler
    returns a colour whose three components lie in 0..255 and recombine, as
    [65536 r + 256 g + b], to the number that the six digits denote; it
    raises nothing. *)
Theorem color_rgb_hex6_components (ctx : HandlerContext)
    (g : list (option string)) :
  hex6_pattern (hc_variant ctx) = Some g ->
  hc_groups ctx = g ->
  exists text color red green blue,
    g = [Some text]
    /\ py_int16 text = Ok color
    /\ color_rgb_hex6 ctx
       = Return ({[ "color_rgb" := VTuple [VInt red; VInt green; VInt blue] ]},
                 hc_extras ctx)
    /\ 0 <= red <= 255 /\ 0 <= green <= 255 /\ 0 <= blue <= 255
    /\ 65536 * red + 256 * green + blue = color.
Proof.
  unfold hex6_pattern. intros Hpat Hg.
  destruct (strip_prefix "#" (hc_variant ctx)) as [text |]; [| discriminate].
  destruct ((String.length text =? 6)%nat) eqn:Hlen; [| discriminate].
  destruct (all_hex text) eqn:Hhex; [| discriminate].
  cbn [andb] in Hpat. injection Hpat as <-.
  apply Nat.eqb_eq in Hlen.
  destruct (hex_value_range text 0 Hhex) as (color & Hval & Hrange).
  rewrite Hlen in Hval, Hrange. cbn [Z.add Z.mul] in Hval.
  change (16 ^ Z.of_nat 6) with 16777216 in Hrange.
  assert (Hint : py_int16 text = Ok color).
  { unfold py_int16. destruct text; [discriminate Hlen |].
    rewrite Hval. reflexivity. }
  destruct (rgb_components color Hrange) as (Hr & Hgr & Hb).
  exists text, color, (color / 65536), ((color / 256) mod 256),
    (color mod 256).
  split; [reflexivity |]. split; [exact Hint |].
  split.
  - unfold color_rgb_hex6, group_at. rewrite Hg.
    change (py_getitem [Some text] 0) with (Ok (Some text)).
    cbn [lift mbind outcome_bind int16_of_group]. rewrite Hint.
    cbn [lift mbind outcome_bind]. rewrite Hr, Hgr, Hb. reflexivity.
  - repeat split; Z.div_mod_to_equations; lia.
Qed.

Lemma color_rgb_hex6_components_witness :
  let ctx := mkHandlerContext
               (mkContext (tile_of "baba" []) [] (0, 0, 0, 0) ∅ ∅)
               ∅ "#f055ee" [Some "f055ee"] ∅ in
  exists red green blue,
    color_rgb_hex6 ctx
    = Return ({[ "color_rgb" := VTuple [VInt red; VInt green; VInt blue] ]}, ∅)
    /\ 0 <= red <= 255 /\ 0 <= green <= 255 /\ 0 <= blue <= 255.
Proof.
  intros ctx.
  destruct (color_rgb_hex6_components ctx [Some "f055ee"])
    as (text & color & red & green & blue & _ & _ & Hrun & Hr & Hg & Hb & _);
    [reflexivity | reflexivity |].
  exists red, green, blue. repeat split; solve [exact Hrun | lia].
Defined.

(** X16: a three-digit hex code gives the colour of the six-digit code in
    which each digit is written twice: [#abc] resolves as [#aabbcc]. *)
Theorem color_rgb_hex3_doubles (base : ContextBase)
    (fields fields' : TileFields) (extras : gmap string value)
    (a b c : ascii) :
  let short := String a (String b (String c EmptyString)) in
  let long :=
    String a (String a (String b (String b (String c (String c EmptyString)))))
  in
  all_hex short = true ->
  hex3_pattern (String "#" short) = Some [Some short]
  /\ hex6_pattern (String "#" long) = Some [Some long]
  /\ color_rgb_hex3
       (mkHandlerContext base fields (String "#" short) [Some short] extras)
     = color_rgb_hex6
         (mkHandlerContext base fields' (String "#" long) [Some long] extras).
Proof.
  intros short long Hhex. unfold short, long in *. cbn [all_hex] in Hhex.
  destruct (hex_digit a) as [da |] eqn:Ha; [| discriminate Hhex].
  destruct (hex_digit b) as [db |] eqn:Hb; [| discriminate Hhex].
  destruct (hex_digit c) as [dc |] eqn:Hc; [| discriminate Hhex].
  pose proof (hex_digit_range a da Ha) as Hra.
  pose proof (hex_digit_range b db Hb) as Hrb.
  pose proof (hex_digit_range c dc Hc) as Hrc.
  split; [| split].
  - unfold hex3_pattern. cbn [strip_prefix]. rewrite Ascii.eqb_refl.
    cbn [String.length Nat.eqb andb all_hex]. rewrite Ha, Hb, Hc.
    reflexivity.
  - unfold hex6_pattern. cbn [strip_prefix]. rewrite Ascii.eqb_refl.
    cbn [String.length Nat.eqb andb all_hex]. rewrite Ha, Hb, Hc.
    reflexivity.
  - unfold color_rgb_hex3, color_rgb_hex6, group_at.
    cbn [hc_groups hc_extras].
    change (py_getitem [Some ?t] 0) with (Ok (Some t)).
    cbn [lift mbind outcome_bind int16_of_group chars doubled_digits
         result_bind py_int16 hex_value].
    rewrite Ha, Hb, Hc.
    cbn [lift mbind outcome_bind result_bind].
    set (color := 16 * (16 * (16 * (16 * (16 * (16 * 0 + da) + da) + db) + db)
                        + dc) + dc).
    assert (Hrange : 0 <= color < 16777216) by (unfold color; lia).
    destruct (rgb_components color Hrange) as (-> & -> & ->).
    assert (E1 : 16 * (16 * 0 + da) + da = color / 65536)
      by (unfold color; Z.div_mod_to_equations; lia).
    assert (E2 : 16 * (16 * 0 + db) + db = (color / 256) mod 256)
      by (unfold color; Z.div_mod_to_equations; lia).
    assert (E3 : 16 * (16 * 0 + dc) + dc = color mod 256)
      by (unfold color; Z.div_mod_to_equations; lia).
    rewrite E1, E2, E3. reflexivity.
Qed.

Lemma color_rgb_hex3_doubles_witness :
  let base := mkContext (tile_of "baba" []) [] (0, 0, 0, 0) ∅ ∅ in
  color_rgb_hex3 (mkHandlerContext base ∅ "#f5e" [Some "f5e"] ∅)
  = color_rgb_hex6 (mkHandlerContext base ∅ "#ff55ee" [Some "ff55ee"] ∅).
Proof.
  intros base.
  apply (color_rgb_hex3_doubles base ∅ ∅ ∅ "f" "5" "e"). reflexivity.
Defined.

Lemma digits_value_nonneg (s : string) (acc : Z) :
  all_digits s = true -> 0 <= acc -> 0 <= digits_value s acc.
Proof.
  revert acc. induction s as [| a s IH]; intros acc Hs Hacc; [exact Hacc |].
  cbn [all_digits] in Hs. apply andb_true_iff in Hs as [Ha Hs].
  cbn [digits_value]. apply IH; [exact Hs |].
  unfold is_digit in Ha. apply andb_true_iff in Ha as [Ha _].
  apply N.leb_le in Ha. lia.
Qed.

Lemma py_int_digits (s : string) :
  digits1 s = true ->
  py_int s = Ok (digits_value s 0) /\ 0 <= digits_value s 0.
Proof.
  unfold digits1. intros H. apply andb_true_iff in H as [Hne Hd].
  split; [| apply digits_value_nonneg; [exact Hd | lia]].
  destruct s as [| c s]; [discriminate Hne |].
  pose proof Hd as Hd'. cbn [all_digits] in Hd'.
  apply andb_true_iff in Hd' as [Hc _].
  unfold py_int. cbn [strip_prefix]. rewrite (is_digit_not_minus c Hc).
  unfold digits1. rewrite Hne, Hd. reflexivity.
Qed.

Lemma strip_prefix_app (p s rest : string) :
  strip_prefix p s = Some rest -> s = p ++ rest.
Proof.
  revert s. induction p as [| a p IH]; intros s H.
  - injection H as ->. reflexivity.
  - destruct s as [| b s]; [discriminate H |]. cbn [strip_prefix] in H.
    destruct (Ascii.eqb_spec a b) as [<- | _]; [| discriminate H].
    change (String a p ++ rest) with (String a (p ++ rest)).
    f_equal. apply IH. exact H.
Qed.

Lemma split_char_app (sep : ascii) (s a : string) (b : option string) :
  split_char sep s = (a, b) ->
  s = a ++ match b with
           | Some t => String sep t
           | None => EmptyString
           end.
Proof.
  revert a b. induction s as [| c s IH]; intros a b H.
  - injection H as <- <-. reflexivity.
  - cbn [split_char] in H. destruct (Ascii.eqb_spec c sep) as [-> | _].
    + injection H as <- <-. reflexivity.
    + destruct (split_char sep s) as [a' b'] eqn:E. injection H as <- <-.
      change (String c a' ++ ?t) with (String c (a' ++ t)).
      f_equal. apply IH. reflexivity.
Qed.

Lemma int_of_group_digits (text : string) :
  digits1 text = true ->
  int_of_group (Some text) =
  if too_long text then Throw (Known ValueError)
  else Return (digits_value text 0).
Proof.
  intros Hd. unfold int_of_group.
  destruct (py_int_digits text Hd) as [-> _]. reflexivity.
Qed.

(** X17: for every token that its pattern accepts, the token is the word
    [pixelate], a number and possibly a slash and a second number.
    [pixelate] raises [ValueError] when a number has more digits than the
    conversion limit of [int]; otherwise it raises nothing and adds one
    filter entry with two radii, each at least 1: the numbers of the token
    raised to 1 when they are 0, the second radius being the first when the
    token has one number. *)
Theorem pixelate_radii (ctx : HandlerContext) (g : list (option string)) :
  pixelate_pattern (hc_variant ctx) = Some g ->
  hc_groups ctx = g ->
  exists first second,
    g = [Some first; second]
    /\ hc_variant ctx
       = "pixelate" ++ first ++ match second with
                                | Some text => String "/" text
                                | None => EmptyString
                                end
    /\ py_int first = Ok (digits_value first 0)
    /\ match second with
       | Some text => py_int text = Ok (digits_value text 0)
       | None => True
       end
    /\ let n0 := digits_value first 0 in
       let n1 := match second with
                 | Some text => digits_value text 0
                 | None => n0
                 end in
       pixelate ctx =
       (if too_long first
           || match second with
              | Some text => too_long text
              | None => false
              end
        then Throw (Known ValueError)
        else Return (add ctx "pixelate"
                       (VList [VInt (Z.max n0 1); VInt (Z.max n1 1)]),
                     hc_extras ctx))
       /\ 1 <= Z.max n0 1 /\ 1 <= Z.max n1 1.
Proof.
  unfold pixelate_pattern. intros Hpat Hg.
  destruct (strip_prefix "pixelate" (hc_variant ctx)) as [rest |] eqn:Hpre;
    [| discriminate].
  apply strip_prefix_app in Hpre.
  destruct (split_char "/" rest) as [a [b |]] eqn:Hsplit;
    apply split_char_app in Hsplit.
  - destruct (digits1 a) eqn:Ha; [| discriminate].
    destruct (digits1 b) eqn:Hb; [| discriminate].
    cbn [andb] in Hpat. injection Hpat as <-.
    exists a, (Some b).
    split; [reflexivity |].
    split; [rewrite Hpre, Hsplit; reflexivity |].
    split; [apply py_int_digits; exact Ha |].
    split; [apply py_int_digits; exact Hb |].
    cbv zeta. split; [| lia].
    unfold pixelate, group_at. rewrite Hg.
    change (py_getitem [Some a; Some b] 0) with (Ok (Some a)).
    change (py_getitem [Some a; Some b] 1) with (Ok (Some b)).
    cbn [lift mbind outcome_bind]. rewrite (int_of_group_digits a Ha).
    destruct (too_long a); [reflexivity |].
    cbn [mbind outcome_bind orb]. rewrite (int_of_group_digits b Hb).
    destruct (too_long b); reflexivity.
  - destruct (digits1 a) eqn:Ha; [| discriminate].
    injection Hpat as <-.
    exists a, None.
    split; [reflexivity |].
    split; [rewrite Hpre, Hsplit; reflexivity |].
    split; [apply py_int_digits; exact Ha |].
    split; [exact I |].
    cbv zeta. split; [| lia].
    unfold pixelate, group_at. rewrite Hg.
    change (py_getitem [Some a; None] 0) with (Ok (Some a)).
    change (py_getitem [Some a; None] 1) with (Ok (@None string)).
    cbn [lift mbind outcome_bind]. rewrite (int_of_group_digits a Ha).
    destruct (too_long a); reflexivity.
Qed.

Lemma pixelate_radii_witness :
  let ctx := mkHandlerContext
               (mkContext (tile_of "baba" []) [] (0, 0, 0, 0) ∅ ∅)
               ∅ "pixelate0" [Some "0"; None] ∅ in
  pixelate ctx
  = Return ({[ "filters" := VList [VList [VStr "pixelate";
                                           VList [VInt 1; VInt 1]]] ]}, ∅).
Proof.
  intros ctx.
  destruct (pixelate_radii ctx [Some "0"; None])
    as (first & second & Hg & _ & _ & _ & Hrun & _);
    [reflexivity | reflexivity |].
  injection Hg as <- <-. rewrite Hrun. reflexivity.
Defined.

Lemma digit_value_one (c : ascii) :
  is_digit c = true ->
  digits1 (String c EmptyString) = true
  /\ digits_value (String c EmptyString) 0 = digit_of c
  /\ too_long (String c EmptyString) = false
  /\ 0 <= digit_of c <= 9.
Proof.
  intros Hc.
  split; [unfold digits1; cbn [String.eqb all_digits negb andb]; rewrite Hc;
          reflexivity |].
  split; [unfold digit_of; cbn [digits_value]; lia |].
  split.
  - unfold too_long, digit_count. cbn [strip_prefix].
    rewrite (is_digit_not_minus c Hc). reflexivity.
  - unfold digit_of, is_digit in *. apply andb_true_iff in Hc as [H1 H2].
    apply N.leb_le in H1, H2. lia.
Qed.

(** X18: a token that the pattern accepts is a digit, a slash and a digit.
    On it [color_index] raises [BadPaletteIndex] with the tile's name and
    the token exactly when the first digit is above 6 or the second above
    4, and otherwise sets the colour to these two digits: a colour inside
    the palette, 0..6 by 0..4. *)
Theorem color_index_in_palette (ctx : HandlerContext)
    (g : list (option string)) :
  color_index_pattern (hc_variant ctx) = Some g ->
  hc_groups ctx = g ->
  exists a b,
    hc_variant ctx = String a (String "/" (String b EmptyString))
    /\ g = [Some (String a EmptyString); Some (String b EmptyString)]
    /\ is_digit a = true /\ is_digit b = true
    /\ 0 <= digit_of a <= 9 /\ 0 <= digit_of b <= 9
    /\ color_index ctx =
       if (digit_of a >? 6) || (digit_of b >? 4)
       then Throw (BadPaletteIndex (name (hc_tile ctx)) (hc_variant ctx))
       else Return ({[ "color_index" := color_value (digit_of a, digit_of b) ]},
                    hc_extras ctx).
Proof.
  unfold color_index_pattern. intros Hpat Hg.
  destruct (hc_variant ctx)
    as [| a [| [[] [] [] [] [] [] [] []] [| b [| ? ?]]]] eqn:Hv;
    try discriminate Hpat.
  destruct (is_digit a) eqn:Ha; [| discriminate Hpat].
  destruct (is_digit b) eqn:Hb; [| discriminate Hpat].
  cbn [andb] in Hpat. injection Hpat as <-.
  destruct (digit_value_one a Ha) as (Hda & Hva & Hla & Hra).
  destruct (digit_value_one b Hb) as (Hdb & Hvb & Hlb & Hrb).
  exists a, b.
  split; [reflexivity |]. split; [reflexivity |].
  split; [exact Ha |]. split; [exact Hb |].
  split; [exact Hra |]. split; [exact Hrb |].
  unfold color_index, group_at. rewrite Hg, Hv.
  change (py_getitem [Some ?s; Some ?t] 0) with (Ok (Some s)).
  change (py_getitem [Some ?s; Some ?t] 1) with (Ok (Some t)).
  cbn [lift mbind outcome_bind].
  rewrite (int_of_group_digits _ Hda), Hla, Hva. cbn [mbind outcome_bind].
  rewrite (int_of_group_digits _ Hdb), Hlb, Hvb. reflexivity.
Qed.

Lemma color_index_in_palette_witness :
  let ctx := mkHandlerContext
               (mkContext (tile_of "baba" []) [] (0, 0, 0, 0) ∅ ∅)
               ∅ "7/3" [Some "7"; Some "3"] ∅ in
  color_index ctx = Throw (BadPaletteIndex "baba" "7/3").
Proof.
  intros ctx.
  destruct (color_index_in_palette ctx [Some "7"; Some "3"])
    as (a & b & Hv & _ & _ & _ & _ & _ & Hrun);
    [reflexivity | reflexivity |].
  injection Hv as <- <-. rewrite Hrun. reflexivity.
Defined.

Lemma py_int_signed (rest : string) :
  digits1 (match strip_prefix "-" rest with
           | Some body => body
           | None => rest
           end) = true ->
  exists level, py_int rest = Ok level.
Proof.
  unfold py_int. destruct (strip_prefix "-" rest) as [body |];
    intros ->; eauto.
Qed.

(** X19: [meta] adds the filter entry [meta_level] with value 1 and leaves
    the [meta_level] field alone.  A token that the pattern of
    [meta_absolute] accepts is [m] followed by a depth; on it
    [meta_absolute] raises [ValueError] when the depth has more digits than
    the conversion limit of [int], raises [BadMetaVariant] with the depth
    when its absolute value is above [MAX_META_DEPTH], and otherwise adds
    the filter entry [meta_level] with the depth, again leaving the
    [meta_level] field alone. *)
Theorem meta_tokens_add_filter (MAX_META_DEPTH : Z) (ctx : HandlerContext) :
  let prior := match hc_fields ctx !! "filters" with
               | Some (VList f) => f
               | _ => []
               end in
  let merged (level : Z) :=
    update (hc_fields ctx) (add ctx "meta_level" (VInt level)) in
  (meta ctx = Return (add ctx "meta_level" (VInt 1), hc_extras ctx)
   /\ (forall level,
         merged level !! "filters"
         = Some (VList (prior ++ [VList [VStr "meta_level"; VInt level]]))
         /\ merged level !! "meta_level" = hc_fields ctx !! "meta_level"))
  /\ forall g,
       meta_absolute_pattern (hc_variant ctx) = Some g ->
       hc_groups ctx = g ->
       exists rest level,
         hc_variant ctx = String "m" rest
         /\ g = [Some rest]
         /\ py_int rest = Ok level
         /\ meta_absolute MAX_META_DEPTH ctx =
            if too_long rest then Throw (Known ValueError)
            else if Z.abs level >? MAX_META_DEPTH
            then Throw (BadMetaVariant (name (hc_tile ctx)) (hc_variant ctx)
                          level)
            else Return (add ctx "meta_level" (VInt level), hc_extras ctx).
Proof.
  intros prior merged. split.
  - split; [reflexivity |]. intros level. unfold merged, prior. split.
    + apply add_filters.
    + apply add_other. discriminate.
  - unfold meta_absolute_pattern. intros g Hpat Hg.
    destruct (strip_prefix "m" (hc_variant ctx)) as [rest |] eqn:Hpre;
      [| discriminate].
    apply strip_prefix_app in Hpre.
    destruct (digits1 _) eqn:Hd; [| discriminate]. injection Hpat as <-.
    destruct (py_int_signed rest Hd) as [level Hint].
    exists rest, level.
    split; [exact Hpre |]. split; [reflexivity |]. split; [exact Hint |].
    unfold meta_absolute, group_at. rewrite Hg.
    change (py_getitem [Some rest] 0) with (Ok (Some rest)).
    cbn [lift mbind outcome_bind int_of_group].
    destruct (too_long rest); [reflexivity |].
    rewrite Hint. reflexivity.
Qed.

Lemma meta_tokens_add_filter_witness :
  let ctx := mkHandlerContext
               (mkContext (tile_of "baba" []) [] (0, 0, 0, 0) ∅ ∅)
               {[ "meta_level" := VInt 0 ]} "m-2" [Some "-2"] ∅ in
  meta_absolute 24 ctx
  = Return (add ctx "meta_level" (VInt (-2)), hc_extras ctx)
  /\ meta_absolute 1 ctx = Throw (BadMetaVariant "baba" "m-2" (-2)).
Proof.
  intros ctx.
  assert (Hat : forall limit,
            exists level,
              py_int "-2" = Ok level
              /\ meta_absolute limit ctx =
                 if Z.abs level >? limit
                 then Throw (BadMetaVariant "baba" "m-2" level)
                 else Return (add ctx "meta_level" (VInt level), hc_extras ctx)).
  { intros limit.
    destruct (meta_tokens_add_filter limit ctx) as (_ & Habs).
    destruct (Habs [Some "-2"]) as (rest & level & _ & Hg & Hint & Hrun);
      [reflexivity | reflexivity |].
    injection Hg as <-. exists level. split; [exact Hint | exact Hrun]. }
  split.
  - destruct (Hat 24) as (level & Hint & ->). injection Hint as <-.
    reflexivity.
  - destruct (Hat 1) as (level & Hint & ->). injection Hint as <-.
    reflexivity.
Defined.

(** X20: the [letter] token is refused with [TileNotText] on a tile that is
    not text, whatever its name, and with [BadLetterVariant] on a text tile
    whose name has more than two characters after the five-character
    prefix; on any other tile it sets the style [letter], which the
    finalizer then keeps whatever the flags. *)
Theorem letter_style (ctx : HandlerContext) (fields : TileFields)
    (flags : gmap string value) :
  (is_text (hc_tile ctx) = false ->
   letter ctx = Throw (TileNotText (name (hc_tile ctx)) "letter"))
  /\ (is_text (hc_tile ctx) = true ->
      (2 < String.length (drop_chars 5 (name (hc_tile ctx))))%nat ->
      letter ctx = Throw (BadLetterVariant (name (hc_tile ctx)) "letter"))
  /\ (is_text (hc_tile ctx) = true ->
      (String.length (drop_chars 5 (name (hc_tile ctx))) <= 2)%nat ->
      exists partial,
        letter ctx = Return (partial, hc_extras ctx)
        /\ ft_custom_style
             (finalize_style
                (from_tile_fields (hc_tile ctx) (update fields partial))
                flags)
           = Some (VStr "letter")).
Proof.
  unfold letter. split; [| split].
  - intros ->. reflexivity.
  - intros -> Hlen. cbn [negb].
    destruct (Nat.ltb_spec 2 (String.length (drop_chars 5 (name (hc_tile ctx)))));
      [reflexivity | lia].
  - intros -> Hlen. cbn [negb].
    destruct (Nat.ltb_spec 2 (String.length (drop_chars 5 (name (hc_tile ctx)))));
      [lia |].
    eexists. split; [reflexivity |].
    assert (Hstyle : ft_custom_style
              (from_tile_fields (hc_tile ctx)
                 (update fields
                    (list_to_map [("custom", VBool true);
                                  ("custom_style", VStr "letter")])))
              = Some (VStr "letter")).
    { unfold ft_custom_style, from_tile_fields. cbn [ft_fields].
      rewrite update_lookup. reflexivity. }
    rewrite finalize_style_keep; [exact Hstyle |].
    right. rewrite Hstyle. discriminate.
Qed.

Lemma letter_style_witness :
  let ctx := mkHandlerContext
               (mkContext (mkRawTile "text_abc" ["letter"] true) []
                  (0, 0, 0, 0) ∅ ∅)
               ∅ "letter" [] ∅ in
  letter ctx = Throw (BadLetterVariant "text_abc" "letter").
Proof.
  intros ctx.
  destruct (letter_style ctx ∅ ∅) as (_ & Hlong & _).
  apply Hlong; [reflexivity | cbn; lia].
Defined.

(** ** The help listing *)

Lemma listed_setdefault_append (out : list (string * list string))
    (g r g' r' : string) :
  listed (setdefault_append out g r) g' r'
  <-> listed out g' r' \/ (g' = g /\ r' = r).
Proof.
  unfold listed. induction out as [| [g0 reprs] out IH];
    cbn [setdefault_append].
  - split.
    + intros (l & Hin & Hr). apply list_elem_of_singleton in Hin.
      injection Hin as -> ->. apply list_elem_of_singleton in Hr. auto.
    + intros [(l & Hin & _) | [-> ->]]; [inversion Hin |].
      exists [r]. split; apply list_elem_of_singleton; reflexivity.
  - destruct (String.eqb_spec g0 g) as [-> | Hne].
    + split.
      * intros (l & Hin & Hr). apply elem_of_cons in Hin as [Hin | Hin].
        -- injection Hin as -> ->. apply elem_of_app in Hr as [Hr | Hr].
           ++ left. exists reprs. split; [left | exact Hr].
           ++ apply list_elem_of_singleton in Hr. auto.
        -- left. exists l. split; [right; exact Hin | exact Hr].
      * intros [(l & Hin & Hr) | [-> ->]].
        -- apply elem_of_cons in Hin as [Hin | Hin].
           ++ injection Hin as -> ->. exists (reprs ++ [r])%list.
              split; [left |]. apply elem_of_app. left. exact Hr.
           ++ exists l. split; [right; exact Hin | exact Hr].
        -- exists (reprs ++ [r])%list. split; [left |].
           apply elem_of_app. right. apply list_elem_of_singleton.
           reflexivity.
    + split.
      * intros (l & Hin & Hr). apply elem_of_cons in Hin as [Hin | Hin].
        -- injection Hin as -> ->. left. exists reprs.
           split; [left | exact Hr].
        -- destruct (proj1 IH (ex_intro _ l (conj Hin Hr)))
             as [(l' & Hin' & Hr') | Heq]; [| right; exact Heq].
           left. exists l'. split; [right; exact Hin' | exact Hr'].
      * intros [(l & Hin & Hr) | Heq].
        -- apply elem_of_cons in Hin as [Hin | Hin].
           ++ injection Hin as -> ->. exists reprs. split; [left | exact Hr].
           ++ destruct (proj2 IH (or_introl (ex_intro _ l (conj Hin Hr))))
                as (l' & Hin' & Hr').
              exists l'. split; [right; exact Hin' | exact Hr'].
        -- destruct (proj2 IH (or_intror Heq)) as (l' & Hin' & Hr').
           exists l'. split; [right; exact Hin' | exact Hr'].
Qed.

Section Probe.
Variable is_variant_error : error -> bool.
Variable tile : RawTile.
Variable cache : gmap string TileData.

(** What one probe does to the listing. *)
Lemma probe_hints_cons (doc : HandlerDoc) (variant repr : string)
    (hs : list (string * string)) (out : list (string * list string)) :
  probe_hints is_variant_error doc tile cache ((variant, repr) :: hs) out =
  match Handler_match (doc_handler doc) variant with
  | Some groups =>
      match handle (doc_handler doc) (mock_ctx tile cache variant groups)
      with
      | Ok _ =>
          probe_hints is_variant_error doc tile cache hs
            (setdefault_append out (group doc) repr)
      | Raise e =>
          if is_variant_error e
          then probe_hints is_variant_error doc tile cache hs out
          else Raise e
      end
  | None =>
      probe_hints is_variant_error doc tile cache hs
        (setdefault_append out (group doc) repr)
  end.
Proof. reflexivity. Qed.

Lemma probe_hints_listed (doc : HandlerDoc) (hs : list (string * string))
    (out out' : list (string * list string)) :
  probe_hints is_variant_error doc tile cache hs out = Ok out' ->
  forall g r,
    listed out' g r <->
    listed out g r
    \/ (g = group doc
        /\ exists v, (v, r) ∈ hs /\ probe_passes doc tile cache v = true).
Proof.
  revert out. induction hs as [| [variant repr] hs IH]; intros out Hrun g r.
  - injection Hrun as <-. split; [auto |].
    intros [H | (_ & v & Hin & _)]; [exact H | inversion Hin].
  - rewrite probe_hints_cons in Hrun.
    assert (Hpass :
              probe_hints is_variant_error doc tile cache hs
                (setdefault_append out (group doc) repr) = Ok out' ->
              probe_passes doc tile cache variant = true ->
              listed out' g r <->
              listed out g r
              \/ (g = group doc
                  /\ exists v, (v, r) ∈ (variant, repr) :: hs
                               /\ probe_passes doc tile cache v = true)).
    { intros Hrest Hp. rewrite (IH _ Hrest g r).
      rewrite listed_setdefault_append. split.
      - intros [[H | [-> ->]] | (-> & v & Hin & Hv)].
        + left. exact H.
        + right. split; [reflexivity |]. exists variant.
          split; [left | exact Hp].
        + right. split; [reflexivity |]. exists v.
          split; [right; exact Hin | exact Hv].
      - intros [H | (-> & v & Hin & Hv)]; [left; left; exact H |].
        apply elem_of_cons in Hin as [Hin | Hin].
        + injection Hin as -> ->. left. right. split; reflexivity.
        + right. split; [reflexivity |]. exists v.
          split; [exact Hin | exact Hv]. }
    unfold probe_passes in Hpass.
    destruct (Handler_match (doc_handler doc) variant) as [groups |] eqn:Hm.
    + destruct (handle (doc_handler doc) _) as [res | e] eqn:Hh.
      * apply Hpass; [exact Hrun | reflexivity].
      * destruct (is_variant_error e); [| discriminate Hrun].
        rewrite (IH _ Hrun g r). split.
        -- intros [H | (-> & v & Hin & Hv)]; [left; exact H |].
           right. split; [reflexivity |]. exists v.
           split; [right; exact Hin | exact Hv].
        -- intros [H | (-> & v & Hin & Hv)]; [left; exact H |].
           apply elem_of_cons in Hin as [Hin | Hin].
           ++ injection Hin as -> ->. unfold probe_passes in Hv.
              rewrite Hm, Hh in Hv. discriminate Hv.
           ++ right. split; [reflexivity |]. exists v.
              split; [exact Hin | exact Hv].
    + apply Hpass; [exact Hrun | reflexivity].
Qed.

Lemma probe_handlers_listed (docs : list HandlerDoc)
    (out out' : list (string * list string)) :
  probe_handlers is_variant_error docs tile cache out = Ok out' ->
  forall g r,
    listed out' g r <->
    listed out g r
    \/ exists doc v,
         doc ∈ docs /\ group doc = g /\ (v, r) ∈ hints doc
         /\ probe_passes doc tile cache v = true.
Proof.
  revert out. induction docs as [| doc docs IH]; intros out Hrun g r.
  - injection Hrun as <-. split; [auto |].
    intros [H | (doc & v & Hin & _)]; [exact H | inversion Hin].
  - cbn [probe_handlers] in Hrun.
    destruct (probe_hints is_variant_error doc tile cache (hints doc) out)
      as [out1 |] eqn:Hh; [| discriminate Hrun].
    rewrite bind_Ok in Hrun.
    rewrite (IH _ Hrun g r), (probe_hints_listed _ _ _ _ Hh g r). split.
    + intros [[H | (-> & v & Hin & Hv)] | (d & v & Hd & Hg & Hin & Hv)].
      * left. exact H.
      * right. exists doc, v. split; [left |]. auto.
      * right. exists d, v. split; [right; exact Hd |]. auto.
    + intros [H | (d & v & Hd & Hg & Hin & Hv)]; [left; left; exact H |].
      apply elem_of_cons in Hd as [-> | Hd].
      * left. right. split; [symmetry; exact Hg |]. exists v. auto.
      * right. exists d, v. auto.
Qed.

(** Whatever escapes the probes is not a [VariantError]; a probe that
    raises anything else ends the listing. *)
Lemma probe_hints_raise (doc : HandlerDoc) (hs : list (string * string))
    (out : list (string * list string)) :
  match probe_hints is_variant_error doc tile cache hs out with
  | Raise e => is_variant_error e = false
  | Ok _ =>
      forall v r groups e,
        (v, r) ∈ hs -> Handler_match (doc_handler doc) v = Some groups ->
        handle (doc_handler doc) (mock_ctx tile cache v groups) = Raise e ->
        is_variant_error e = true
  end.
Proof.
  revert out. induction hs as [| [variant repr] hs IH]; intros out.
  - cbn [probe_hints]. intros v r groups e Hin. inversion Hin.
  - rewrite probe_hints_cons.
    assert (Hok : forall out0,
              (forall groups e,
                 Handler_match (doc_handler doc) variant = Some groups ->
                 handle (doc_handler doc)
                   (mock_ctx tile cache variant groups) = Raise e ->
                 is_variant_error e = true) ->
              match probe_hints is_variant_error doc tile cache hs out0 with
              | Raise e => is_variant_error e = false
              | Ok _ =>
                  forall v r groups e,
                    (v, r) ∈ (variant, repr) :: hs ->
                    Handler_match (doc_handler doc) v = Some groups ->
                    handle (doc_handler doc)
                      (mock_ctx tile cache v groups) = Raise e ->
                    is_variant_error e = true
              end).
    { intros out0 Hhead. specialize (IH out0).
      destruct (probe_hints is_variant_error doc tile cache hs out0);
        [| exact IH].
      intros v r groups e Hin Hm Hh.
      apply elem_of_cons in Hin as [Hin | Hin].
      - injection Hin as -> ->. exact (Hhead _ _ Hm Hh).
      - exact (IH _ _ _ _ Hin Hm Hh). }
    destruct (Handler_match (doc_handler doc) variant) as [groups |] eqn:Hm.
    + destruct (handle (doc_handler doc) _) as [res | e] eqn:Hh.
      * apply Hok. intros groups' e' [= <-]. rewrite Hh. discriminate.
      * destruct (is_variant_error e) eqn:He; [| exact He].
        apply Hok. intros groups' e' [= <-]. rewrite Hh.
        intros [= <-]. exact He.
    + apply Hok. discriminate.
Qed.

Lemma probe_handlers_raise (docs : list HandlerDoc)
    (out : list (string * list string)) :
  match probe_handlers is_variant_error docs tile cache out with
  | Raise e => is_variant_error e = false
  | Ok _ =>
      forall doc v r groups e,
        doc ∈ docs -> (v, r) ∈ hints doc ->
        Handler_match (doc_handler doc) v = Some groups ->
        handle (doc_handler doc) (mock_ctx tile cache v groups) = Raise e ->
        is_variant_error e = true
  end.
Proof.
  revert out. induction docs as [| doc docs IH]; intros out.
  - cbn [probe_handlers]. intros d v r groups e Hin. inversion Hin.
  - cbn [probe_handlers].
    pose proof (probe_hints_raise doc (hints doc) out) as Hh.
    destruct (probe_hints is_variant_error doc tile cache (hints doc) out)
      as [out1 |]; [| exact Hh].
    rewrite bind_Ok. specialize (IH out1).
    destruct (probe_handlers is_variant_error docs tile cache out1);
      [| exact IH].
    intros d v r groups e Hd Hin Hm Hr.
    apply elem_of_cons in Hd as [-> | Hd].
    + exact (Hh _ _ _ _ Hin Hm Hr).
    + exact (IH _ _ _ _ _ Hd Hin Hm Hr).
Qed.
End Probe.

Lemma probe_hints_total (is_variant_error : error -> bool) (tile : RawTile)
    (cache : gmap string TileData) (doc : HandlerDoc)
    (hs : list (string * string)) (out : list (string * list string)) :
  (forall v r groups e,
     (v, r) ∈ hs -> Handler_match (doc_handler doc) v = Some groups ->
     handle (doc_handler doc) (mock_ctx tile cache v groups) = Raise e ->
     is_variant_error e = true) ->
  exists out', probe_hints is_variant_error doc tile cache hs out = Ok out'.
Proof.
  revert out. induction hs as [| [variant repr] hs IH]; intros out Hall.
  - eexists. reflexivity.
  - rewrite probe_hints_cons.
    assert (Hrest : forall v r groups e,
              (v, r) ∈ hs -> Handler_match (doc_handler doc) v = Some groups ->
              handle (doc_handler doc) (mock_ctx tile cache v groups) = Raise e ->
              is_variant_error e = true).
    { intros v r groups e Hin. apply (Hall v r groups e). right. exact Hin. }
    destruct (Handler_match (doc_handler doc) variant) as [groups |] eqn:Hm;
      [| apply IH; exact Hrest].
    destruct (handle (doc_handler doc) _) as [res | e] eqn:Hh;
      [apply IH; exact Hrest |].
    rewrite (Hall variant repr groups e (list_elem_of_here _ _) Hm Hh).
    apply IH. exact Hrest.
Qed.

Lemma probe_handlers_total (is_variant_error : error -> bool) (tile : RawTile)
    (cache : gmap string TileData) (docs : list HandlerDoc)
    (out : list (string * list string)) :
  (forall doc v r groups e,
     doc ∈ docs -> (v, r) ∈ hints doc ->
     Handler_match (doc_handler doc) v = Some groups ->
     handle (doc_handler doc) (mock_ctx tile cache v groups) = Raise e ->
     is_variant_error e = true) ->
  exists out', probe_handlers is_variant_error docs tile cache out = Ok out'.
Proof.
  revert out. induction docs as [| doc docs IH]; intros out Hall.
  - eexists. reflexivity.
  - cbn [probe_handlers].
    destruct (probe_hints_total is_variant_error tile cache doc (hints doc) out)
      as [out1 ->].
    { intros v r groups e Hin. apply (Hall doc v r groups e); [left | exact Hin]. }
    rewrite bind_Ok. apply IH.
    intros d v r groups e Hd. apply (Hall d v r groups e). right. exact Hd.
Qed.

(** X21: when [valid_variants] returns, a representation is listed under a
    group exactly when it is the representation of a hint of a handler of
    that group whose probe passed: the handler returned on the mock context,
    or its pattern rejected the hint's own token, in which case the hint is
    listed without the handler being called.  Whatever is listed is among
    [all_variants]. *)
Theorem valid_variants_listing (is_variant_error : error -> bool)
    (docs : list HandlerDoc) (tile : RawTile) (cache : gmap string TileData)
    (out : list (string * list string)) :
  valid_variants is_variant_error docs tile cache = Ok out ->
  (forall g r,
     listed out g r <->
     exists doc v,
       doc ∈ docs /\ group doc = g /\ (v, r) ∈ hints doc
       /\ probe_passes doc tile cache v = true)
  /\ (forall doc v r,
        doc ∈ docs -> (v, r) ∈ hints doc ->
        Handler_match (doc_handler doc) v = None ->
        listed out (group doc) r)
  /\ (forall g r, listed out g r -> r ∈ all_variants docs).
Proof.
  unfold valid_variants. intros Hrun.
  assert (Hiff : forall g r,
            listed out g r <->
            exists doc v,
              doc ∈ docs /\ group doc = g /\ (v, r) ∈ hints doc
              /\ probe_passes doc tile cache v = true).
  { intros g r.
    rewrite (probe_handlers_listed is_variant_error tile cache docs [] out
               Hrun g r).
    split; [| auto].
    intros [(l & Hin & _) | H]; [inversion Hin | exact H]. }
  split; [exact Hiff |]. split.
  - intros doc v r Hd Hin Hm. apply Hiff. exists doc, v.
    repeat split; try assumption. unfold probe_passes. rewrite Hm.
    reflexivity.
  - intros g r Hl. apply Hiff in Hl as (doc & v & Hd & _ & Hin & _).
    unfold all_variants. apply list_elem_of_bind. exists doc.
    split; [| exact Hd].
    apply list_elem_of_fmap. exists (v, r). split; [reflexivity | exact Hin].
Qed.

Lemma valid_variants_listing_witness :
  let flag := tile_of "flag" [] in
  exists out,
    valid_variants not_builtin [directions_doc sample_constants] flag
      sample_cache = Ok out
    /\ listed out "Alternate sprites" "`up` / `down`"
    /\ ~ listed out "Alternate sprites" "`right`".
Proof.
  intros flag.
  assert (Hrun : exists out,
            valid_variants not_builtin [directions_doc sample_constants] flag
              sample_cache = Ok out) by (eexists; vm_compute; reflexivity).
  destruct Hrun as [out Hrun]. exists out. split; [exact Hrun |].
  destruct (valid_variants_listing _ _ _ _ _ Hrun) as (Hiff & Hrej & _).
  split.
  - apply (Hrej (directions_doc sample_constants) "dir");
      [left | right; left | reflexivity].
  - intros Hl. apply Hiff in Hl as (doc & v & Hd & _ & Hin & Hp).
    apply list_elem_of_singleton in Hd. subst doc.
    cbn [hints directions_doc] in Hin.
    apply elem_of_cons in Hin as [Hin | Hin].
    + injection Hin as ->. vm_compute in Hp. discriminate Hp.
    + apply list_elem_of_singleton in Hin. discriminate Hin.
Defined.

(** X22: [valid_variants] swallows the errors of the [VariantError] class
    and only those: it returns exactly when every error raised by a probed
    handler is of that class, and an error that escapes it is never of that
    class. *)
Theorem valid_variants_errors (is_variant_error : error -> bool)
    (docs : list HandlerDoc) (tile : RawTile) (cache : gmap string TileData) :
  (forall e,
     valid_variants is_variant_error docs tile cache = Raise e ->
     is_variant_error e = false)
  /\ ((exists out, valid_variants is_variant_error docs tile cache = Ok out)
      <-> forall doc v r groups e,
            doc ∈ docs -> (v, r) ∈ hints doc ->
            Handler_match (doc_handler doc) v = Some groups ->
            handle (doc_handler doc) (mock_ctx tile cache v groups) = Raise e ->
            is_variant_error e = true).
Proof.
  unfold valid_variants.
  pose proof (probe_handlers_raise is_variant_error tile cache docs []) as Hr.
  split; [| split].
  - intros e He. rewrite He in Hr. exact Hr.
  - intros [out Hout]. rewrite Hout in Hr. exact Hr.
  - apply probe_handlers_total.
Qed.

Lemma valid_variants_errors_witness :
  valid_variants not_builtin [directions_doc sample_constants; broken_doc]
    (tile_of "flag" []) sample_cache = Raise KeyError
  /\ not_builtin KeyError = false.
Proof.
  split; [vm_compute; reflexivity |].
  destruct (valid_variants_errors not_builtin
              [directions_doc sample_constants; broken_doc]
              (tile_of "flag" []) sample_cache) as [Hesc _].
  apply Hesc. vm_compute. reflexivity.
Defined.

(** ** Outcomes of the scan *)

Lemma scan_handlers_outcome (hs : list Handler) (base : ContextBase)
    (variant : string) (fields : TileFields) (extras : gmap string value)
    (failed : bool) :
  match scan_handlers hs base variant (fields, extras, failed) with
  | Ok (_, _, failed') =>
      (failed' = failed
       /\ Forall (fun h => Handler_match h variant = None) hs)
      \/ (failed' = false /\ exists h, h ∈ hs /\ matches variant h = true)
  | Raise e =>
      exists h ctx,
        h ∈ hs /\ matches variant h = true /\ handle h ctx = Raise e
  end.
Proof.
  revert fields extras failed.
  induction hs as [| h hs IH]; intros fields extras failed.
  - cbn [scan_handlers]. left. split; [reflexivity | constructor].
  - cbn [scan_handlers].
    destruct (Handler_match h variant) as [groups |] eqn:Hm.
    + assert (Hh : matches variant h = true) by (unfold matches; rewrite Hm;
                                                 reflexivity).
      destruct (handle h _) as [[partial extras'] | e] eqn:Hrun.
      * rewrite bind_Ok.
        specialize (IH (update fields partial) extras' false).
        destruct (scan_handlers hs base variant _) as [[[f' x'] failed'] | e].
        -- right. destruct IH as [[-> _] | [-> _]];
             (split; [reflexivity |]); exists h; (split; [left | exact Hh]).
        -- destruct IH as (h' & ctx & Hin & Hm' & Hr).
           exists h', ctx. split; [right; exact Hin | auto].
      * cbn [mbind result_bind]. eexists h, _.
        split; [left |]. split; [exact Hh | exact Hrun].
    + specialize (IH fields extras failed).
      destruct (scan_handlers hs base variant _) as [[[f' x'] failed'] | e].
      * destruct IH as [[-> Hall] | [-> (h' & Hin & Hm')]].
        -- left. split; [reflexivity |]. constructor; assumption.
        -- right. split; [reflexivity |]. exists h'.
           split; [right; exact Hin | exact Hm'].
      * destruct IH as (h' & ctx & Hin & Hm' & Hr).
        exists h', ctx. split; [right; exact Hin | auto].
Qed.

Lemma elem_of_rev_inv {A : Type} (x : A) (l : list A) :
  x ∈ rev l -> x ∈ l.
Proof.
  rewrite !list_elem_of_In. intros H. apply in_rev. exact H.
Qed.

(** X23: the resolution of one token succeeds only if some handler accepts
    the token; when it fails, either no handler accepts the token and the
    error is [UnknownVariant] with the tile and the token, or the error is
    one that an accepting handler raised. *)
Theorem handle_variant_outcome (hs : list Handler) (base : ContextBase)
    (variant : string) (st : TileFields * gmap string value) :
  match handle_variant hs base variant st with
  | Ok _ => exists h, h ∈ hs /\ matches variant h = true
  | Raise e =>
      (Forall (fun h => Handler_match h variant = None) hs
       /\ e = UnknownVariant (ctx_tile base) variant)
      \/ exists h ctx,
           h ∈ hs /\ matches variant h = true /\ handle h ctx = Raise e
  end.
Proof.
  unfold handle_variant.
  pose proof (scan_handlers_outcome (rev hs) base variant st.1 st.2 true)
    as Hscan.
  destruct (scan_handlers (rev hs) base variant _)
    as [[[f' x'] failed'] | e]; rewrite ?bind_Ok; cbn [mbind result_bind].
  - destruct Hscan as [[-> Hall] | [-> (h & Hin & Hm)]].
    + left. split; [| reflexivity]. apply Forall_rev in Hall.
      rewrite rev_involutive in Hall. exact Hall.
    + exists h. split; [| exact Hm]. apply elem_of_rev_inv. exact Hin.
  - destruct Hscan as (h & ctx & Hin & Hm & Hr).
    right. exists h, ctx. split; [apply elem_of_rev_inv; exact Hin | auto].
Qed.

(** X24: the tokens of a tile are resolved left to right on one state: the
    tokens [vs1 ++ vs2] give what [vs2] gives from the fields and extras
    that [vs1] left, and an error of [vs1] is the error of the whole list,
    whatever follows. *)
Theorem apply_variants_sequence (hs : list Handler) (base : ContextBase)
    (vs1 vs2 : list string) (st : TileFields * gmap string value) :
  match apply_variants hs base vs1 st with
  | Ok st1 =>
      apply_variants hs base (vs1 ++ vs2) st
      = apply_variants hs base vs2 st1
  | Raise e => apply_variants hs base (vs1 ++ vs2) st = Raise e
  end.
Proof.
  rewrite apply_variants_app.
  destruct (apply_variants hs base vs1 st); reflexivity.
Qed.

(** ** The render name *)

Lemma has_slash_app (s t : string) :
  has_slash (s ++ t) = has_slash s || has_slash t.
Proof.
  induction s as [| c s IH]; [reflexivity |].
  change (String c s ++ t) with (String c (s ++ t)).
  cbn [has_slash]. rewrite IH, orb_assoc. reflexivity.
Qed.

Lemma has_slash_remove (s : string) : has_slash (remove_slashes s) = false.
Proof.
  induction s as [| c s IH]; [reflexivity |].
  destruct (Ascii.eqb_spec c "/") as [-> | Hne]; [exact IH |].
  assert (Hstep : remove_slashes (String c s) = String c (remove_slashes s)).
  { destruct c as [[] [] [] [] [] [] [] []]; try reflexivity.
    exfalso. apply Hne. reflexivity. }
  rewrite Hstep. cbn [has_slash]. rewrite IH.
  destruct (Ascii.eqb_spec c "/"); [contradiction | reflexivity].
Qed.

Lemma has_slash_repeat (n : nat) (s : string) :
  has_slash s = false -> has_slash (repeat_string n s) = false.
Proof.
  intros Hs. induction n as [| n IH]; [reflexivity |].
  cbn [repeat_string]. rewrite has_slash_app, Hs, IH. reflexivity.
Qed.

Lemma has_slash_uint (d : Decimal.uint) :
  has_slash (DecimalString.NilEmpty.string_of_uint d) = false.
Proof. induction d; cbn; assumption || reflexivity. Qed.

Lemma has_slash_str_of_int (z : Z) : has_slash (str_of_int z) = false.
Proof.
  unfold str_of_int, DecimalString.NilZero.string_of_int,
    DecimalString.NilZero.string_of_uint.
  destruct (Z.to_int z) as [d | d]; destruct d; cbn [has_slash Ascii.eqb];
    try reflexivity;
    first [apply (has_slash_uint (Decimal.D0 d))
          | apply (has_slash_uint (Decimal.D1 d))
          | apply (has_slash_uint (Decimal.D2 d))
          | apply (has_slash_uint (Decimal.D3 d))
          | apply (has_slash_uint (Decimal.D4 d))
          | apply (has_slash_uint (Decimal.D5 d))
          | apply (has_slash_uint (Decimal.D6 d))
          | apply (has_slash_uint (Decimal.D7 d))
          | apply (has_slash_uint (Decimal.D8 d))
          | apply (has_slash_uint (Decimal.D9 d))
          | idtac].
  all: cbn; first [apply has_slash_uint | reflexivity].
Qed.

(** X25: the render name that the finalizer puts into an empty
    [extra_names] list contains no [/], whatever the tile's identifier, meta
    level and variant number. *)
Theorem render_name_has_no_slash (tile : FullTile) :
  exists n,
    finalize_names tile (Some []) = Some [n] /\ has_slash n = false.
Proof.
  eexists. split; [reflexivity |].
  rewrite !has_slash_app, has_slash_remove, has_slash_str_of_int.
  rewrite has_slash_repeat by reflexivity. reflexivity.
Qed.
